(** * The CI assistant script [scripts/openai_assistant.py]

    A shallow embedding of the script and the properties of its retrying
    completion caller, prompt builders, handlers and dispatcher.

    Conventions of the embedding.
    - A Python [str] whose code points are below 256 is a [string], one
      character per code point.
    - A value read from JSON or YAML is a [pyval].
    - A Python [float] is a value of the abstract type [pyfloat]; the power
      operator [**], the check that [time.sleep] makes on its argument, the
      builtin [str] on loaded values and the method [str.format] are
      operations of the Python runtime and are variables of the section.
      The first two and the last can raise.
    - Every call of a remote service is recorded in a trace of events; the
      outcome of the call is chosen by the [World], which sees the whole
      history up to and including the request. *)

From Stdlib Require Import ZArith List String Ascii Bool Lia QArith DecimalString.
Import ListNotations.
Local Open Scope list_scope.
Local Open Scope string_scope.
Set Warnings "-register-all".

(** ** Python strings *)

Module PyStr.

Definition nl : string := String (ascii_of_nat 10) EmptyString.

(** [str.isspace] on one character, for code points below 256. *)
Definition isspace (c : ascii) : bool :=
  let n := nat_of_ascii c in
  ((9 <=? n) && (n <=? 13) || (28 <=? n) && (n <=? 32) || (n =? 133) || (n =? 160))%nat.

Fixpoint lstrip (s : string) : string :=
  match s with
  | EmptyString => EmptyString
  | String c s' => if isspace c then lstrip s' else s
  end.

Fixpoint rstrip (s : string) : string :=
  match s with
  | EmptyString => EmptyString
  | String c s' =>
      match rstrip s' with
      | EmptyString => if isspace c then EmptyString else String c EmptyString
      | r => String c r
      end
  end.

(** [s.strip()] *)
Definition strip (s : string) : string := rstrip (lstrip s).

Definition all_space (s : string) : bool :=
  forallb isspace (list_ascii_of_string s).

(** [sep.join(parts)] *)
Definition join (sep : string) (parts : list string) : string :=
  String.concat sep parts.

(** Line boundaries of [str.splitlines], for code points below 256. *)
Definition is_linebreak (c : ascii) : bool :=
  let n := nat_of_ascii c in
  ((10 <=? n) && (n <=? 13) || (28 <=? n) && (n <=? 30) || (n =? 133))%nat.

Fixpoint splitlines_from (cur : string) (s : string) : list string :=
  match s with
  | EmptyString => match cur with EmptyString => [] | _ => [cur] end
  | String c s' =>
      if (nat_of_ascii c =? 13)%nat then
        match s' with
        | String c' s'' =>
            if (nat_of_ascii c' =? 10)%nat
            then cur :: splitlines_from EmptyString s''
            else cur :: splitlines_from EmptyString s'
        | EmptyString => [cur]
        end
      else if is_linebreak c then cur :: splitlines_from EmptyString s'
      else splitlines_from (cur ++ String c EmptyString) s'
  end.

(** [s.splitlines()] *)
Definition splitlines (s : string) : list string := splitlines_from EmptyString s.

(** [needle in hay] for two strings. *)
Fixpoint contains (needle hay : string) : bool :=
  String.prefix needle hay ||
  match hay with
  | EmptyString => false
  | String _ hay' => contains needle hay'
  end.

End PyStr.

(** ** Python values and exceptions *)

Definition exn := string.

Inductive result (A : Type) : Type :=
| Ok (a : A)
| Raise (e : exn).
Arguments Ok {A} a.
Arguments Raise {A} e.

(** What [json.load] and [yaml.safe_load] produce (numbers are integers,
    mapping keys are strings). *)
Inductive pyval : Type :=
| PNone
| PBool (b : bool)
| PInt (z : Z)
| PStr (s : string)
| PList (l : list pyval)
| PDict (d : list (string * pyval)).

Module PyVal.

(** Truth value, as tested by [if v:], [not v] and [v or w]. *)
Definition truthy (v : pyval) : bool :=
  match v with
  | PNone => false
  | PBool b => b
  | PInt z => negb (z =? 0)%Z
  | PStr s => negb (s =? "")
  | PList l => match l with [] => false | _ => true end
  | PDict d => match d with [] => false | _ => true end
  end.

Definition is_none (v : pyval) : bool :=
  match v with PNone => true | _ => false end.

Fixpoint lookup (k : string) (d : list (string * pyval)) : option pyval :=
  match d with
  | [] => None
  | (k', v) :: d' => if k' =? k then Some v else lookup k d'
  end.

Definition has_key (k : string) (d : list (string * pyval)) : bool :=
  match lookup k d with Some _ => true | None => false end.

(** [v.get(k, default)] *)
Definition get (v : pyval) (k : string) (default : pyval) : result pyval :=
  match v with
  | PDict d => Ok (match lookup k d with Some x => x | None => default end)
  | _ => Raise "AttributeError"
  end.

Definition is_str (k : string) (v : pyval) : bool :=
  match v with PStr s => s =? k | _ => false end.

(** [k in v] for a string [k]. *)
Definition contains (k : string) (v : pyval) : result bool :=
  match v with
  | PDict d => Ok (has_key k d)
  | PList l => Ok (existsb (is_str k) l)
  | PStr s => Ok (PyStr.contains k s)
  | _ => Raise "TypeError"
  end.

(** [v[k]] for a string [k]. *)
Definition getitem (v : pyval) (k : string) : result pyval :=
  match v with
  | PDict d => match lookup k d with Some x => Ok x | None => Raise "KeyError" end
  | _ => Raise "TypeError"
  end.

(** [v[0]] *)
Definition getitem0 (v : pyval) : result pyval :=
  match v with
  | PList (x :: _) => Ok x
  | PList [] => Raise "IndexError"
  | PStr (String c _) => Ok (PStr (String c EmptyString))
  | PStr EmptyString => Raise "IndexError"
  | PDict _ => Raise "KeyError"
  | _ => Raise "TypeError"
  end.

(** [v.strip()] *)
Definition strip (v : pyval) : result string :=
  match v with
  | PStr s => Ok (PyStr.strip s)
  | _ => Raise "AttributeError"
  end.

(** The elements visited by [for p in v]. *)
Definition iter (v : pyval) : result (list pyval) :=
  match v with
  | PList l => Ok l
  | PDict d => Ok (map (fun kv => PStr (fst kv)) d)
  | PStr s => Ok (map (fun c => PStr (String c EmptyString)) (list_ascii_of_string s))
  | _ => Raise "TypeError"
  end.

(** [l[:stop]] for an integer [stop]. *)
Definition slice_to {A} (stop : Z) (l : list A) : list A :=
  if (0 <=? stop)%Z then firstn (Z.to_nat stop) l
  else firstn (List.length l - Z.to_nat (- stop)) l.

(** [l[:v]] for a loaded value [v]. *)
Definition slice_to_val {A} (v : pyval) (l : list A) : result (list A) :=
  match v with
  | PInt z => Ok (slice_to z l)
  | PBool b => Ok (slice_to (if b then 1 else 0)%Z l)
  | PNone => Ok l
  | _ => Raise "TypeError"
  end.

(** [range(lo, hi)] *)
Definition range (lo hi : Z) : list Z :=
  map (fun i => (lo + Z.of_nat i)%Z) (seq 0 (Z.to_nat (hi - lo))).

End PyVal.

(** [os.getenv] gives [None] or a string; [not v] holds for [None] and for
    the empty string. *)
Definition env_set (v : option string) : bool :=
  match v with
  | Some s => negb (s =? "")
  | None => false
  end.

Section Assistant.

(** ** The Python runtime *)

Context {pyfloat : Type}.
(** [x ** n] for a float [x] and an integer [n]; it raises
    [OverflowError] when the result is too large. *)
Variable fpow : pyfloat -> Z -> result pyfloat.
(** What [time.sleep(seconds)] does with its argument before it sleeps: it
    raises [ValueError] for a negative or NaN duration and [OverflowError]
    for one that is too large. *)
Variable time_sleep : pyfloat -> result unit.
(** What an f-string or a format field prints for a loaded value. *)
Variable py_str : pyval -> string.
(** [template.format] applied to keyword arguments [fields]. *)
Variable str_format : string -> list (string * pyval) -> result string.

(** ** Settings read from the environment (lines 32-41) *)

Record Settings : Type := {
  GITHUB_TOKEN : option string;
  OPENAI_API_KEY : option string;
  OPENAI_MODEL : string;
  OPENAI_TEMPERATURE : pyfloat;
  ASSISTANT_LABEL : string;
  MAX_RESPONSE_TOKENS : Z;
  RETRY_ATTEMPTS : Z;
  RETRY_BACKOFF : pyfloat;
  MAX_SNIPPET_FILES : Z
}.

(** ** Messages, requests and events *)

Record message : Type := { role : string; content : pyval }.

Record pull : Type := { head_sha : string; head_ref : string }.

Record changed_file : Type := { filename : string; patch : option string }.

Inductive request : Type :=
| ChatCompletion_create (model : string) (messages : list message)
    (temperature : pyfloat) (max_tokens : Z)
| get_repo (repo_full : pyval)
| get_issue (repo number : pyval)
| create_comment (repo number : pyval) (body : string)
| get_labels (repo : pyval)
| add_to_labels (repo number : pyval) (label : string)
| create_label (repo : pyval) (name color description : string)
| get_pull (repo number : pyval)
| get_files (repo number : pyval)
| get_contents (repo : pyval) (path ref : string).

Inductive level : Type := DEBUG | INFO | WARNING | ERROR | EXCEPTION.

(** What the process does that is visible outside: a request to a remote
    service, a call of the logger (level and format string), a sleep, a
    printed traceback. *)
Inductive event : Type :=
| ECall (r : request)
| ELog (lvl : level) (fmt : string)
| ESleep (seconds : pyfloat)
| ETraceback (e : exn).

(** The remote services.  Each field gives the outcome of one kind of call
    from the history, whose last event is the request itself. *)
Record World : Type := {
  openai_create : list event -> result pyval;
  gh_get_repo : list event -> result unit;
  gh_get_issue : list event -> result unit;
  gh_create_comment : list event -> result unit;
  gh_get_labels : list event -> result (list string);
  gh_add_to_labels : list event -> result unit;
  gh_create_label : list event -> result unit;
  gh_get_pull : list event -> result pull;
  gh_get_files : list event -> result (list changed_file);
  gh_get_contents : list event -> result string
}.

(** ** Computations: a trace of events and a result or an exception *)

Definition M (A : Type) : Type := list event -> result A * list event.

Definition ret {A} (a : A) : M A := fun tr => (Ok a, tr).

Definition raise {A} (e : exn) : M A := fun tr => (Raise e, tr).

Definition bind {A B} (m : M A) (k : A -> M B) : M B :=
  fun tr =>
    match m tr with
    | (Ok a, tr') => k a tr'
    | (Raise e, tr') => (Raise e, tr')
    end.

Definition lift {A} (r : result A) : M A := fun tr => (r, tr).

Definition emit (e : event) : M unit := fun tr => (Ok tt, (tr ++ [e])%list).

Definition log (lvl : level) (fmt : string) : M unit := emit (ELog lvl fmt).

(** [time.sleep(seconds)]: the sleep is recorded when the duration is
    accepted. *)
Definition sleep (seconds : pyfloat) : M unit :=
  bind (lift (time_sleep seconds)) (fun _ => emit (ESleep seconds)).

Definition call {A} (r : request) (outcome : list event -> result A) : M A :=
  fun tr => let tr' := (tr ++ [ECall r])%list in (outcome tr', tr').

(** [try: m  except Exception as e: handler e] *)
Definition try_except {A} (m : M A) (handler : exn -> M A) : M A :=
  fun tr =>
    match m tr with
    | (Ok a, tr') => (Ok a, tr')
    | (Raise e, tr') => handler e tr'
    end.

Notation "x <- m ;; k" := (bind m (fun x => k))
  (at level 100, m at next level, right associativity).
Notation "m ;;; k" := (bind m (fun _ => k))
  (at level 100, right associativity).

Variable st : Settings.
Variable w : World.

(** ** [call_openai_chat] (lines 75-97) *)

(** [resp["choices"][0]["message"]["content"]] *)
Definition raw_content (resp : pyval) : result pyval :=
  match PyVal.getitem resp "choices" with
  | Raise e => Raise e
  | Ok choices =>
      match PyVal.getitem0 choices with
      | Raise e => Raise e
      | Ok choice =>
          match PyVal.getitem choice "message" with
          | Raise e => Raise e
          | Ok msg => PyVal.getitem msg "content"
          end
      end
  end.

(** [resp["choices"][0]["message"]["content"].strip()] *)
Definition reply_content (resp : pyval) : result string :=
  match raw_content resp with
  | Ok c => PyVal.strip c
  | Raise e => Raise e
  end.

Definition chat_request (messages : list message) : request :=
  ChatCompletion_create (OPENAI_MODEL st) messages (OPENAI_TEMPERATURE st)
    (MAX_RESPONSE_TOKENS st).

(** The [for attempt in ...] loop: [inl content] when the body returned,
    [inr last_exc] when the loop ran to its end.  The handler of lines
    90-94 is not itself protected: an exception of [**] at line 92 or of
    [time.sleep] at line 94 leaves the loop and [call_openai_chat]. *)
Fixpoint attempts_loop (messages : list message) (attempts : list Z)
    (last_exc : option exn) : M (string + option exn) :=
  match attempts with
  | [] => ret (inr last_exc)
  | attempt :: rest =>
      try_except
        (resp <- call (chat_request messages) (openai_create w) ;;
         content <- lift (reply_content resp) ;;
         ret (inl content))
        (fun e =>
           wait <- lift (fpow (RETRY_BACKOFF st) attempt) ;;
           log WARNING "OpenAI call failed (attempt %d/%d): %s. Retrying in %.1fs" ;;;
           sleep wait ;;;
           attempts_loop messages rest (Some e))
  end.

Definition call_openai_chat (messages : list message) : M (option string) :=
  if negb (env_set (OPENAI_API_KEY st)) then
    log INFO "Skipping OpenAI call because OPENAI_API_KEY is not set." ;;;
    ret None
  else
    r <- attempts_loop messages (PyVal.range 1 (RETRY_ATTEMPTS st + 1)) None ;;
    match r with
    | inl content => ret (Some content)
    | inr last_exc =>
        log ERROR "OpenAI calls failed after %d attempts: %s" ;;;
        match last_exc with
        | Some e => emit (ETraceback e)
        | None => raise "AttributeError"
        end ;;;
        ret None
    end.

(** ** [safe_post_comment_and_label] (lines 99-121) *)

(** [gh] is a client when [GITHUB_TOKEN] is set and [None] otherwise
    (line 73). *)
Definition gh_present : bool := env_set (GITHUB_TOKEN st).

Definition safe_post_comment_and_label (repo_full number : pyval)
    (body : string) : M unit :=
  if negb gh_present then
    log INFO "GITHUB_TOKEN not available; skipping comment/label creation."
  else
    try_except
      (call (get_repo repo_full) (gh_get_repo w) ;;;
       call (get_issue repo_full number) (gh_get_issue w) ;;;
       call (create_comment repo_full number body) (gh_create_comment w) ;;;
       try_except
         (labels <- call (get_labels repo_full) (gh_get_labels w) ;;
          if existsb (String.eqb (ASSISTANT_LABEL st)) labels then
            call (add_to_labels repo_full number (ASSISTANT_LABEL st))
              (gh_add_to_labels w)
          else
            try_except
              (call (create_label repo_full (ASSISTANT_LABEL st) "f29513"
                       "AI-assisted content") (gh_create_label w) ;;;
               call (add_to_labels repo_full number (ASSISTANT_LABEL st))
                 (gh_add_to_labels w))
              (fun _ =>
                 log INFO "Could not create label %s, possibly due to permissions."))
         (fun _ => log EXCEPTION "Failed to add label (non-fatal)."))
      (fun _ =>
         log EXCEPTION
           "Failed to post comment or add label; check permissions and GITHUB_TOKEN.").

(** ** [fetch_changed_files_for_pr] (lines 123-131) *)

Definition fetch_changed_files_for_pr (repo_obj pr_number : pyval)
    : M (list string) :=
  try_except
    (call (get_pull repo_obj pr_number) (gh_get_pull w) ;;;
     files <- call (get_files repo_obj pr_number) (gh_get_files w) ;;
     ret (map filename files))
    (fun _ =>
       log EXCEPTION "Failed to fetch changed files for PR %s" ;;;
       ret []).

(** ** [get_file_snippet_for_pr] (lines 133-161) *)

(** [getattr(f, "patch", None)] is true for a non-empty patch. *)
Definition patch_text (f : changed_file) : option string :=
  match patch f with
  | Some p => if p =? "" then None else Some p
  | None => None
  end.

Definition excerpt (text : string) (max_lines : pyval) : result string :=
  match PyVal.slice_to_val max_lines (PyStr.splitlines text) with
  | Ok lines => Ok (PyStr.join PyStr.nl lines)
  | Raise e => Raise e
  end.

Definition get_file_snippet_for_pr (repo_obj pr_number : pyval)
    (file_path : string) (max_lines : pyval) : M string :=
  try_except
    (pr <- call (get_pull repo_obj pr_number) (gh_get_pull w) ;;
     files <- call (get_files repo_obj pr_number) (gh_get_files w) ;;
     match find (fun f => filename f =? file_path) files with
     | Some f =>
         match patch_text f with
         | Some p => lift (excerpt p max_lines)
         | None =>
             try_except
               (text <- call (get_contents repo_obj file_path (head_sha pr))
                          (gh_get_contents w) ;;
                lift (excerpt text max_lines))
               (fun _ =>
                  log DEBUG "Could not fetch raw content for %s at %s" ;;;
                  ret "")
         end
     | None => ret ""
     end)
    (fun _ =>
       log EXCEPTION "Error while extracting snippet for %s" ;;;
       ret "").

(** ** [build_pr_prompt] (lines 163-200) *)

(** [template.format(...)] for a configured value: only a string has the
    method. *)
Definition format_template (template : pyval) (fields : list (string * pyval))
    : result string :=
  match template with
  | PStr s => str_format s fields
  | _ => Raise "AttributeError"
  end.

Definition changed_files_text (changed_files : list string) : string :=
  match changed_files with
  | [] => "No file list available."
  | _ => PyStr.join PyStr.nl (map (fun p => "- " ++ p) changed_files)
  end.

(** The user content of line 181, used when formatting the template fails. *)
Definition pr_format_failure_content (title body : pyval)
    (changed_files_list : string) : string :=
  "PR title: " ++ py_str title ++ PyStr.nl ++ PyStr.nl ++
  "PR body:" ++ PyStr.nl ++ py_str body ++ PyStr.nl ++ PyStr.nl ++
  "Changed files:" ++ PyStr.nl ++ changed_files_list.

(** The user content of line 183, used when no template is configured. *)
Definition pr_default_content (title body : pyval)
    (changed_files_list : string) : string :=
  "PR title: " ++ py_str title ++ PyStr.nl ++ PyStr.nl ++
  "PR body:" ++ PyStr.nl ++ py_str body ++ PyStr.nl ++ PyStr.nl ++
  "Changed files:" ++ PyStr.nl ++ changed_files_list ++ PyStr.nl ++ PyStr.nl ++
  "Task: Write a concise, reviewer-friendly PR description and a focused reviewer checklist. Highlight any security-sensitive files and recommend manual checks.".

Definition snippet_lines (snippets : list (string * string)) : list string :=
  match snippets with
  | [] => []
  | _ =>
      (PyStr.nl ++ "Snippets from changed files (limited):") ::
      flat_map
        (fun ps =>
           [ "--- " ++ fst ps ++ " ---";
             if snd ps =? "" then "(no snippet available)" else snd ps ])
        snippets
  end.

Definition build_pr_prompt (title body : pyval) (changed_files : list string)
    (snippets : list (string * string)) (repo_full pr_number : pyval)
    (assistant_config : pyval) : M (list message) :=
  let changed_files_list := changed_files_text changed_files in
  sensitive_paths <- lift (PyVal.get assistant_config "sensitive_paths" (PList [])) ;;
  system <- lift (PyVal.get assistant_config "system_prompt"
    (PStr "You are a cautious, security-minded coding assistant. Prioritize human review and be concise.")) ;;
  pr_template <- lift (PyVal.get assistant_config "pr_prompt" (PStr "")) ;;
  user_content <-
    (if PyVal.truthy pr_template then
       try_except
         (lift (format_template pr_template
                  [ ("title", title); ("body", body);
                    ("changed_files_list", PStr changed_files_list);
                    ("repo_full", repo_full); ("pr_number", pr_number) ]))
         (fun _ =>
            log EXCEPTION "Failed to format pr_prompt template; falling back to default." ;;;
            ret (pr_format_failure_content title body changed_files_list))
     else ret (pr_default_content title body changed_files_list)) ;;
  paths <- lift (PyVal.iter sensitive_paths) ;;
  let context_lines :=
    ([ "Changed files (top-level list):"; changed_files_list; "";
       "Sensitive path patterns:" ]
     ++ map (fun p => ("- " ++ py_str p)%string) paths
     ++ snippet_lines snippets)%list in
  let context_block := PyStr.join PyStr.nl context_lines in
  ret [ {| role := "system"; content := system |};
        {| role := "user"; content := PStr context_block |};
        {| role := "user"; content := PStr user_content |} ].

(** ** [build_issue_prompt] (lines 202-223) *)

(** The user content of lines 215 and 217. *)
Definition issue_default_content (title body : pyval) : string :=
  "Issue title: " ++ py_str title ++ PyStr.nl ++ PyStr.nl ++
  "Body:" ++ PyStr.nl ++ py_str body ++ PyStr.nl ++ PyStr.nl ++
  "Task: Triage this issue, suggest severity and next steps.".

Definition build_issue_prompt (title body repo_full issue_number : pyval)
    (assistant_config : pyval) : M (list message) :=
  system <- lift (PyVal.get assistant_config "system_prompt"
    (PStr "You are a careful triage assistant. Request reproduction steps and emphasize security when relevant.")) ;;
  issue_template <- lift (PyVal.get assistant_config "issue_prompt" (PStr "")) ;;
  user_content <-
    (if PyVal.truthy issue_template then
       try_except
         (lift (format_template issue_template
                  [ ("title", title); ("body", body);
                    ("repo_full", repo_full); ("issue_number", issue_number) ]))
         (fun _ =>
            log EXCEPTION "Failed to format issue_prompt template; falling back to default." ;;;
            ret (issue_default_content title body))
     else ret (issue_default_content title body)) ;;
  ret [ {| role := "system"; content := system |};
        {| role := "user"; content := PStr user_content |} ].

(** ** [handle_pull_request] (lines 225-263) *)

(** [snippets[path] = snippet] on a dict kept in insertion order. *)
Fixpoint dict_set (path snippet : string) (snippets : list (string * string))
    : list (string * string) :=
  match snippets with
  | [] => [(path, snippet)]
  | (p, s) :: rest =>
      if p =? path then (p, snippet) :: rest
      else (p, s) :: dict_set path snippet rest
  end.

(** The loop of lines 246-250 over the paths it visits. *)
Fixpoint snippets_loop (repo_obj pr_number max_snip_lines : pyval)
    (paths : list string) (snippets : list (string * string))
    : M (list (string * string)) :=
  match paths with
  | [] => ret snippets
  | path :: rest =>
      snippet <- try_except
                   (get_file_snippet_for_pr repo_obj pr_number path max_snip_lines)
                   (fun _ => ret "") ;;
      snippets_loop repo_obj pr_number max_snip_lines rest
        (dict_set path snippet snippets)
  end.

(** Lines 244-250: the snippet mapping handed to [build_pr_prompt]. *)
Definition prepare_snippets (repo_obj pr_number : pyval)
    (changed_files : list string) (assistant_config : pyval)
    : M (list (string * string)) :=
  max_snip_lines <- lift (PyVal.get assistant_config "max_file_snippet_lines" (PInt 40)) ;;
  snippets_loop repo_obj pr_number max_snip_lines
    (match changed_files with
     | [] => []
     | _ => PyVal.slice_to (MAX_SNIPPET_FILES st) changed_files
     end) [].

Definition pr_comment (suggestion : string) : string :=
  ":robot: AI assistant suggestion (please review carefully):" ++ PyStr.nl ++ PyStr.nl ++
  suggestion ++ PyStr.nl ++ PyStr.nl ++
  "_Note: This is an automated suggestion. All AI-generated content must be reviewed by a human before merging._".

(** [not suggestion] for the optional string returned by the caller. *)
Definition no_suggestion (suggestion : option string) : bool :=
  match suggestion with
  | Some s => s =? ""
  | None => true
  end.

Definition handle_pull_request (payload assistant_config : pyval) : M unit :=
  pr <- lift (PyVal.get payload "pull_request" (PDict [])) ;;
  title <- lift (PyVal.get pr "title" (PStr "")) ;;
  body0 <- lift (PyVal.get pr "body" PNone) ;;
  let body := if PyVal.truthy body0 then body0 else PStr "" in
  repository <- lift (PyVal.get payload "repository" (PDict [])) ;;
  repo_full <- lift (PyVal.get repository "full_name" PNone) ;;
  pr_number <- lift (PyVal.get pr "number" PNone) ;;
  if negb (PyVal.truthy repo_full) || PyVal.is_none pr_number then
    log ERROR "PR payload missing repository or pr number; aborting."
  else
    log INFO "Handling PR %s#%s" ;;;
    changed_files <-
      (if gh_present then
         call (get_repo repo_full) (gh_get_repo w) ;;;
         fetch_changed_files_for_pr repo_full pr_number
       else ret []) ;;
    snippets <- prepare_snippets repo_full pr_number changed_files assistant_config ;;
    messages <- build_pr_prompt title body changed_files snippets repo_full
                  pr_number assistant_config ;;
    suggestion <- call_openai_chat messages ;;
    match suggestion with
    | Some s =>
        if s =? "" then log INFO "No suggestion returned from OpenAI for PR."
        else safe_post_comment_and_label repo_full pr_number (pr_comment s)
    | None => log INFO "No suggestion returned from OpenAI for PR."
    end.

(** ** [handle_issue] (lines 265-288) *)

Definition issue_comment (suggestion : string) : string :=
  ":robot: AI assistant triage suggestion (please review):" ++ PyStr.nl ++ PyStr.nl ++
  suggestion ++ PyStr.nl ++ PyStr.nl ++
  "_Note: This is an automated suggestion. All AI-generated content must be reviewed by a human._".

Definition handle_issue (payload assistant_config : pyval) : M unit :=
  issue <- lift (PyVal.get payload "issue" (PDict [])) ;;
  title <- lift (PyVal.get issue "title" (PStr "")) ;;
  body0 <- lift (PyVal.get issue "body" PNone) ;;
  let body := if PyVal.truthy body0 then body0 else PStr "" in
  repository <- lift (PyVal.get payload "repository" (PDict [])) ;;
  repo_full <- lift (PyVal.get repository "full_name" PNone) ;;
  issue_number <- lift (PyVal.get issue "number" PNone) ;;
  if negb (PyVal.truthy repo_full) || PyVal.is_none issue_number then
    log ERROR "Issue payload missing repository or issue number; aborting."
  else
    log INFO "Handling issue %s#%s" ;;;
    messages <- build_issue_prompt title body repo_full issue_number
                  assistant_config ;;
    suggestion <- call_openai_chat messages ;;
    match suggestion with
    | Some s =>
        if s =? "" then log INFO "No suggestion returned from OpenAI for issue."
        else safe_post_comment_and_label repo_full issue_number (issue_comment s)
    | None => log INFO "No suggestion returned from OpenAI for issue."
    end.

(** ** [main] (lines 290-300) and the module body (lines 43-73)

    [main] returns the exit status of the process: 1 through [sys.exit(1)],
    0 when it returns normally. *)

Definition main (event assistant_config : pyval) : M Z :=
  try_except
    (is_pr <- lift (PyVal.contains "pull_request" event) ;;
     if is_pr then handle_pull_request event assistant_config ;;; ret 0%Z
     else
       is_issue <- lift (PyVal.contains "issue" event) ;;
       if is_issue then handle_issue event assistant_config ;;; ret 0%Z
       else
         log INFO "Event is not a pull_request or issue; nothing to do." ;;;
         ret 0%Z)
    (fun _ =>
       log EXCEPTION "Unhandled exception in assistant main loop." ;;;
       ret 1%Z).

(** What the module body finds when it starts: the event path and whether
    the file exists, the outcome of [json.load] on it, whether the
    configuration file exists and the outcome of [yaml.safe_load] on it. *)
Record Startup : Type := {
  EVENT_PATH : option string;
  event_path_exists : bool;
  event_json : result pyval;
  cfg_exists : bool;
  cfg_yaml : result pyval
}.

Definition load_config (s : Startup) : M pyval :=
  if cfg_exists s then
    try_except
      (v <- lift (cfg_yaml s) ;;
       ret (if PyVal.truthy v then v else PDict []))
      (fun _ =>
         log EXCEPTION "Failed to load .github/assistant-config.yaml; using defaults." ;;;
         ret (PDict []))
  else
    log INFO "No .github/assistant-config.yaml found; using defaults." ;;;
    ret (PDict []).

(** The whole run of the script; the result is the exit status. *)
Definition script (s : Startup) : M Z :=
  if negb (env_set (EVENT_PATH s)) || negb (event_path_exists s) then
    log ERROR "No GITHUB_EVENT_PATH present; exiting." ;;;
    ret 0%Z
  else
    event <- try_except
               (lift (event_json s))
               (fun _ =>
                  log EXCEPTION "Failed to parse GITHUB_EVENT_PATH JSON" ;;;
                  ret (PDict [])) ;;
    assistant_config <- load_config s ;;
    (if negb (env_set (OPENAI_API_KEY st)) then
       log WARNING "OPENAI_API_KEY not set. The assistant will not call the OpenAI API."
     else ret tt) ;;;
    main event assistant_config.

(** ** Observations on traces *)

Definition is_chat (e : event) : bool :=
  match e with
  | ECall (ChatCompletion_create _ _ _ _) => true
  | _ => false
  end.

Definition is_network (e : event) : bool :=
  match e with
  | ECall _ => true
  | _ => false
  end.

(** A comment posted or a label created or attached. *)
Definition is_post (e : event) : bool :=
  match e with
  | ECall (create_comment _ _ _) => true
  | ECall (add_to_labels _ _ _) => true
  | ECall (create_label _ _ _ _) => true
  | _ => false
  end.

(** Number of completion calls attempted in a trace. *)
Definition chat_attempts (tr : list event) : nat :=
  List.length (filter is_chat tr).

(** The durations slept, in order. *)
Definition sleeps (tr : list event) : list pyfloat :=
  flat_map (fun e => match e with ESleep d => [d] | _ => [] end) tr.

(** The calls of the hosting service, in order. *)
Definition hosting_calls (tr : list event) : list request :=
  flat_map
    (fun e =>
       match e with
       | ECall (ChatCompletion_create _ _ _ _) => []
       | ECall r => [r]
       | _ => []
       end) tr.

(** The bodies of the comments posted, in order. *)
Definition comments (tr : list event) : list string :=
  flat_map
    (fun e =>
       match e with
       | ECall (create_comment _ _ body) => [body]
       | _ => []
       end) tr.

(** The events after the last completion call of a trace. *)
Fixpoint after_last_chat (tr : list event) : list event :=
  match tr with
  | [] => []
  | e :: tr' =>
      if existsb is_chat tr' then after_last_chat tr'
      else if is_chat e then tr' else e :: tr'
  end.

(** The outcome of the body of the [try] of one attempt, from the history
    that ends with its request. *)
Definition attempt_outcome (h : list event) : result string :=
  match openai_create w h with
  | Ok resp => reply_content resp
  | Raise e => Raise e
  end.

(** The comment and label requests of a trace. *)
Definition posts (tr : list event) : list event := filter is_post tr.

(** The network calls of a trace. *)
Definition network_calls (tr : list event) : list event := filter is_network tr.

(** Neither a completion call nor a comment or label request. *)
Definition quiet (e : event) : bool := negb (is_chat e) && negb (is_post e).

Definition not_post (e : event) : bool := negb (is_post e).

(** Not a call of a remote service. *)
Definition silent (e : event) : bool := negb (is_network e).

(** The hosting service accepts every call and reports the labels
    [labels] for the repository. *)
Definition hosting_accepts (labels : list string) : Prop :=
  (forall h, gh_get_repo w h = Ok tt) /\
  (forall h, gh_get_issue w h = Ok tt) /\
  (forall h, gh_create_comment w h = Ok tt) /\
  (forall h, gh_get_labels w h = Ok labels) /\
  (forall h, gh_create_label w h = Ok tt) /\
  (forall h, gh_add_to_labels w h = Ok tt).

(** The label requests that follow a posted comment. *)
Definition label_calls (repo number : pyval) (labels : list string)
    : list request :=
  if existsb (String.eqb (ASSISTANT_LABEL st)) labels then
    [ add_to_labels repo number (ASSISTANT_LABEL st) ]
  else
    [ create_label repo (ASSISTANT_LABEL st) "f29513" "AI-assisted content";
      add_to_labels repo number (ASSISTANT_LABEL st) ].

(** [m] extends the trace by events accepted by [p] only, and a value it
    returns satisfies [Q]. *)
Definition emits_only {A} (p : event -> bool) (Q : A -> Prop) (m : M A) : Prop :=
  forall tr, exists added,
    snd (m tr) = (tr ++ added)%list /\
    forallb p added = true /\
    forall a, fst (m tr) = Ok a -> Q a.

(** The invariant of a conversation: it is not empty and its first message
    has the role [system]. *)
Definition well_formed (messages : list message) : bool :=
  match messages with
  | m :: _ => role m =? "system"
  | [] => false
  end.

(** The content of the last message of a conversation. *)
Definition last_content (messages : list message) : option pyval :=
  match rev messages with
  | m :: _ => Some (content m)
  | [] => None
  end.

(** [wait] is the duration slept after the failed attempt [attempt]: the
    power of line 92 is computed and [time.sleep] accepts it at line 94. *)
Definition backoff_wait (attempt : Z) (wait : pyfloat) : Prop :=
  fpow (RETRY_BACKOFF st) attempt = Ok wait /\ time_sleep wait = Ok tt.

(** The events of failed attempts followed by the sleeps [waits]. *)
Definition failed_attempts (messages : list message) (waits : list pyfloat)
    : list event :=
  flat_map
    (fun wait =>
       [ ECall (chat_request messages);
         ELog WARNING "OpenAI call failed (attempt %d/%d): %s. Retrying in %.1fs";
         ESleep wait ])
    waits.

(** ** More observations on traces *)

(** Not a call of the hosting service. *)
Definition no_hosting (e : event) : bool :=
  match e with
  | ECall (ChatCompletion_create _ _ _ _) => true
  | ECall _ => false
  | _ => true
  end.

(** Not a completion call. *)
Definition no_chat (e : event) : bool := negb (is_chat e).

(** A request about labels: listing, creating or attaching. *)
Definition is_label_request (e : event) : bool :=
  match e with
  | ECall (get_labels _) => true
  | ECall (add_to_labels _ _ _) => true
  | ECall (create_label _ _ _ _) => true
  | _ => false
  end.

(** The label requests of a trace. *)
Definition label_requests (tr : list event) : list event :=
  filter is_label_request tr.

(** [m] extends the trace by a list of events that satisfies [R], and a
    value it returns satisfies [Q]. *)
Definition traces {A} (R : list event -> Prop) (Q : A -> Prop) (m : M A) : Prop :=
  forall tr, exists added,
    snd (m tr) = (tr ++ added)%list /\
    R added /\
    forall a, fst (m tr) = Ok a -> Q a.

(** What a handler may post: nothing, or one comment that frames, with
    [frame], a reply that is not empty and has no whitespace around it. *)
Definition posts_at_most_one_reply (frame : string -> string)
    (added : list event) : Prop :=
  posts added = [] \/
  exists s, s <> "" /\ PyStr.strip s = s /\ comments added = [frame s].

(** The payload without its top-level key [k]. *)
Definition without_key (k : string) (d : list (string * pyval))
    : list (string * pyval) :=
  filter (fun kv => negb (fst kv =? k)) d.

(** A value on which [.get] raises: anything but a mapping. *)
Definition not_mapping (v : pyval) : bool :=
  match v with
  | PDict _ => false
  | _ => true
  end.

(** A value that [lines[:v]] rejects. *)
Definition not_slice_bound (v : pyval) : bool :=
  match v with
  | PInt _ | PBool _ | PNone => false
  | _ => true
  end.

(** The run of a handler: what it posts, and at most [RETRY_ATTEMPTS]
    completion calls. *)
Definition run_ok (frame : string -> string) (added : list event) : Prop :=
  posts_at_most_one_reply frame added /\
  (chat_attempts added <= Z.to_nat (RETRY_ATTEMPTS st))%nat.

(** A stretch of a run with no completion call and no comment or label
    request. *)
Definition quiet_run (added : list event) : Prop :=
  forallb quiet added = true.

(** [m] extends every trace [tr] by events that satisfy [R tr]. *)
Definition extends {A} (R : list event -> list event -> Prop) (m : M A) : Prop :=
  forall tr, exists added, snd (m tr) = (tr ++ added)%list /\ R tr added.

(** What a handler may post after the history [tr]: nothing, or one comment
    that frames, with [frame], the stripped content [s] of the response
    [resp] that the completion service gave to the last completion request
    of the run; that content is not empty. *)
Definition posts_only_the_reply (frame : string -> string)
    (tr added : list event) : Prop :=
  posts added = [] \/
  exists s before after messages resp,
    added = (before ++ [ECall (chat_request messages)] ++ after)%list /\
    openai_create w (tr ++ before ++ [ECall (chat_request messages)])%list
    = Ok resp /\
    reply_content resp = Ok s /\
    chat_attempts after = 0%nat /\
    s <> "" /\ PyStr.strip s = s /\
    comments added = [frame s].

End Assistant.

(** ** A concrete runtime and concrete worlds

    Seconds are rationals, on which [**] never overflows.  [show] and
    [format_fields] agree with Python's
    [str] and [str.format] on the values and templates used below: values
    whose strings need no escaping, templates whose replacement fields are
    plain keyword names. *)

Module Example.

Definition pow (x : Q) (n : Z) : result Q := Ok (Qpower x n).

(** [time.sleep] refuses a negative duration. *)
Definition nap (seconds : Q) : result unit :=
  if Qle_bool 0 seconds then Ok tt else Raise "ValueError".

Definition decimal (z : Z) : string := NilZero.string_of_int (Z.to_int z).

Fixpoint repr (v : pyval) : string :=
  match v with
  | PNone => "None"
  | PBool true => "True"
  | PBool false => "False"
  | PInt z => decimal z
  | PStr s => "'" ++ s ++ "'"
  | PList l => "[" ++ PyStr.join ", " (map repr l) ++ "]"
  | PDict d =>
      "{" ++ PyStr.join ", "
               (map (fun kv : string * pyval =>
                       let (k, x) := kv in "'" ++ k ++ "': " ++ repr x) d)
          ++ "}"
  end.

Definition show (v : pyval) : string :=
  match v with
  | PStr s => s
  | _ => repr v
  end.

Definition prepend (s : string) (r : result string) : result string :=
  match r with
  | Ok t => Ok (s ++ t)
  | Raise e => Raise e
  end.

(** [field] is [Some name] while the characters of a replacement field are
    being read. *)
Fixpoint format_from (fields : list (string * pyval)) (field : option string)
    (s : string) : result string :=
  match s with
  | EmptyString =>
      match field with
      | None => Ok EmptyString
      | Some _ => Raise "ValueError"
      end
  | String c s' =>
      match field with
      | None =>
          if (c =? "{")%char then
            match s' with
            | String "{"%char s'' => prepend "{" (format_from fields None s'')
            | _ => format_from fields (Some EmptyString) s'
            end
          else if (c =? "}")%char then
            match s' with
            | String "}"%char s'' => prepend "}" (format_from fields None s'')
            | _ => Raise "ValueError"
            end
          else prepend (String c EmptyString) (format_from fields None s')
      | Some name =>
          if (c =? "}")%char then
            match PyVal.lookup name fields with
            | Some v => prepend (show v) (format_from fields None s')
            | None => Raise "KeyError"
            end
          else format_from fields (Some (name ++ String c EmptyString)) s'
      end
  end.

Definition format_fields (template : string) (fields : list (string * pyval))
    : result string :=
  format_from fields None template.

(** A completion response carrying [text]. *)
Definition chat_response (text : string) : pyval :=
  PDict [ ("choices",
           PList [ PDict [ ("message",
                            PDict [ ("role", PStr "assistant");
                                    ("content", PStr text) ]) ] ]) ].

(** A hosting service on which every call succeeds: the repository has the
    labels [labels] and the pull request changes [files]. *)
Definition world (completion : list (@event Q) -> result pyval)
    (labels : list string) (files : list changed_file) : @World Q :=
  {| openai_create := completion;
     gh_get_repo := fun _ => Ok tt;
     gh_get_issue := fun _ => Ok tt;
     gh_create_comment := fun _ => Ok tt;
     gh_get_labels := fun _ => Ok labels;
     gh_add_to_labels := fun _ => Ok tt;
     gh_create_label := fun _ => Ok tt;
     gh_get_pull := fun _ => Ok {| head_sha := "0a1b2c"; head_ref := "feature" |};
     gh_get_files := fun _ => Ok files;
     gh_get_contents := fun _ => Ok ("line one" ++ PyStr.nl ++ "line two") |}.

(** The defaults of lines 35-41, with both credentials set or not. *)
Definition settings (token key : option string) : @Settings Q :=
  {| GITHUB_TOKEN := token;
     OPENAI_API_KEY := key;
     OPENAI_MODEL := "gpt-4o";
     OPENAI_TEMPERATURE := 0%Q;
     ASSISTANT_LABEL := "ai-assisted";
     MAX_RESPONSE_TOKENS := 600%Z;
     RETRY_ATTEMPTS := 3%Z;
     RETRY_BACKOFF := 2%Q;
     MAX_SNIPPET_FILES := 5%Z |}.

(** The completion call raises on its first [n] attempts and then returns
    [text]. *)
Definition fails_first (n : nat) (text : string) (h : list (@event Q))
    : result pyval :=
  if (chat_attempts h <=? n)%nat then Raise "APIConnectionError"
  else Ok (chat_response text).

Definition always_fails (h : list (@event Q)) : result pyval :=
  Raise "APIConnectionError".

Definition issue_event : pyval :=
  PDict [ ("issue", PDict [ ("title", PStr "Crash on startup");
                            ("body", PStr ""); ("number", PInt 42) ]);
          ("repository", PDict [ ("full_name", PStr "acme/widget") ]) ].

Definition pr_event : pyval :=
  PDict [ ("pull_request", PDict [ ("title", PStr "Add cache");
                                   ("body", PNone); ("number", PInt 7) ]);
          ("repository", PDict [ ("full_name", PStr "acme/widget") ]) ].

Definition ten_files : list changed_file :=
  map (fun n => {| filename := "src/f" ++ decimal (Z.of_nat n) ++ ".py";
                   patch := Some ("@@ -1 +1 @@" ++ PyStr.nl ++ "+x") |})
      (seq 0 10).

(** Both credentials set; the model credential missing. *)
Definition both : @Settings Q := settings (Some "ghs_token") (Some "sk-key").
Definition no_key : @Settings Q := settings (Some "ghs_token") None.

(** An event file that is not JSON, and no configuration file. *)
Definition unparsable : Startup :=
  {| EVENT_PATH := Some "/github/workflow/event.json";
     event_path_exists := true;
     event_json := Raise "JSONDecodeError";
     cfg_exists := false;
     cfg_yaml := Ok PNone |}.

(** The hosting credential missing. *)
Definition no_token : @Settings Q := settings None (Some "sk-key").

(** Both credentials set and no attempt allowed. *)
Definition no_retries : @Settings Q :=
  {| GITHUB_TOKEN := Some "ghs_token";
     OPENAI_API_KEY := Some "sk-key";
     OPENAI_MODEL := "gpt-4o";
     OPENAI_TEMPERATURE := 0%Q;
     ASSISTANT_LABEL := "ai-assisted";
     MAX_RESPONSE_TOKENS := 600%Z;
     RETRY_ATTEMPTS := 0%Z;
     RETRY_BACKOFF := 2%Q;
     MAX_SNIPPET_FILES := 5%Z |}.

(** Both credentials set and [OPENAI_RETRY_BACKOFF=-2]. *)
Definition negative_backoff : @Settings Q :=
  {| GITHUB_TOKEN := Some "ghs_token";
     OPENAI_API_KEY := Some "sk-key";
     OPENAI_MODEL := "gpt-4o";
     OPENAI_TEMPERATURE := 0%Q;
     ASSISTANT_LABEL := "ai-assisted";
     MAX_RESPONSE_TOKENS := 600%Z;
     RETRY_ATTEMPTS := 3%Z;
     RETRY_BACKOFF := (-2)%Q;
     MAX_SNIPPET_FILES := 5%Z |}.

(** A hosting service that refuses every comment. *)
Definition refusing_comments : @World Q :=
  {| openai_create := always_fails;
     gh_get_repo := fun _ => Ok tt;
     gh_get_issue := fun _ => Ok tt;
     gh_create_comment := fun _ => Raise "GithubException";
     gh_get_labels := fun _ => Ok [];
     gh_add_to_labels := fun _ => Ok tt;
     gh_create_label := fun _ => Ok tt;
     gh_get_pull := fun _ => Ok {| head_sha := "0a1b2c"; head_ref := "feature" |};
     gh_get_files := fun _ => Ok [];
     gh_get_contents := fun _ => Ok EmptyString |}.

(** A hosting service that accepts comments and refuses to create labels. *)
Definition no_label_permission : @World Q :=
  {| openai_create := always_fails;
     gh_get_repo := fun _ => Ok tt;
     gh_get_issue := fun _ => Ok tt;
     gh_create_comment := fun _ => Ok tt;
     gh_get_labels := fun _ => Ok ["bug"];
     gh_add_to_labels := fun _ => Ok tt;
     gh_create_label := fun _ => Raise "GithubException";
     gh_get_pull := fun _ => Ok {| head_sha := "0a1b2c"; head_ref := "feature" |};
     gh_get_files := fun _ => Ok [];
     gh_get_contents := fun _ => Ok EmptyString |}.

(** A pull request that cannot be read. *)
Definition unreadable_pull (completion : list (@event Q) -> result pyval)
    : @World Q :=
  {| openai_create := completion;
     gh_get_repo := fun _ => Ok tt;
     gh_get_issue := fun _ => Ok tt;
     gh_create_comment := fun _ => Ok tt;
     gh_get_labels := fun _ => Ok [];
     gh_add_to_labels := fun _ => Ok tt;
     gh_create_label := fun _ => Ok tt;
     gh_get_pull := fun _ => Raise "UnknownObjectException";
     gh_get_files := fun _ => Ok ten_files;
     gh_get_contents := fun _ => Ok EmptyString |}.

(** A changed file reported without a patch. *)
Definition readme_without_patch : list changed_file :=
  [ {| filename := "README.md"; patch := None |} ].

(** An issue event without the repository entry. *)
Definition issue_without_repository : pyval :=
  PDict [ ("issue", PDict [ ("title", PStr "Crash on startup");
                            ("body", PStr ""); ("number", PInt 42) ]) ].

(** An event that carries both an issue and a pull request. *)
Definition both_keys_event : list (string * pyval) :=
  [ ("issue", PDict [ ("title", PStr "Add cache"); ("number", PInt 7) ]);
    ("pull_request", PDict [ ("title", PStr "Add cache");
                             ("body", PNone); ("number", PInt 7) ]);
    ("repository", PDict [ ("full_name", PStr "acme/widget") ]) ].

(** The event file is fine and the configuration file cannot be loaded. *)
Definition broken_config : Startup :=
  {| EVENT_PATH := Some "/github/workflow/event.json";
     event_path_exists := true;
     event_json := Ok issue_event;
     cfg_exists := true;
     cfg_yaml := Raise "YAMLError" |}.

End Example.

(** * Properties *)

Section AssistantProperties.

Context {pyfloat : Type}.
Variable fpow : pyfloat -> Z -> result pyfloat.
Variable time_sleep : pyfloat -> result unit.
Variable py_str : pyval -> string.
Variable str_format : string -> list (string * pyval) -> result string.
Variable st : @Settings pyfloat.
Variable w : @World pyfloat.

Local Open Scope list_scope.

Implicit Types (tr h added : list (@event pyfloat)) (messages : list message).

(** ** Observations distribute over concatenation *)

Lemma chat_attempts_app tr added :
  chat_attempts (tr ++ added) = (chat_attempts tr + chat_attempts added)%nat.
Proof. unfold chat_attempts. now rewrite filter_app, length_app. Qed.

Lemma sleeps_app tr added : sleeps (tr ++ added) = sleeps tr ++ sleeps added.
Proof. apply flat_map_app. Qed.

Lemma hosting_calls_app tr added :
  hosting_calls (tr ++ added) = hosting_calls tr ++ hosting_calls added.
Proof. apply flat_map_app. Qed.

Lemma comments_app tr added : comments (tr ++ added) = comments tr ++ comments added.
Proof. apply flat_map_app. Qed.

Lemma after_last_chat_snoc tr messages :
  after_last_chat (tr ++ [ECall (chat_request st messages)]) = [].
Proof.
  induction tr as [|e tr IH]; simpl; [reflexivity|].
  rewrite existsb_app; simpl. rewrite orb_true_r. exact IH.
Qed.

(** ** [range] *)

Lemma range_length lo hi : List.length (PyVal.range lo hi) = Z.to_nat (hi - lo).
Proof. unfold PyVal.range. now rewrite length_map, length_seq. Qed.

Lemma range_snoc n :
  (1 <= n)%Z -> PyVal.range 1 (n + 1) = PyVal.range 1 n ++ [n].
Proof.
  intros Hn. unfold PyVal.range.
  replace (Z.to_nat (n + 1 - 1)) with (S (Z.to_nat (n - 1))) by lia.
  rewrite seq_S, map_app, Nat.add_0_l. cbn [map]. do 2 f_equal. lia.
Qed.

(** ** The retry loop, one attempt at a time *)

Lemma failed_attempts_chat messages (waits : list pyfloat) :
  chat_attempts (failed_attempts st messages waits) = List.length waits.
Proof.
  induction waits as [|a l IH]; [reflexivity|].
  unfold failed_attempts in *; simpl. unfold chat_attempts in *; simpl.
  now rewrite IH.
Qed.

Lemma failed_attempts_sleeps messages (waits : list pyfloat) :
  sleeps (failed_attempts st messages waits) = waits.
Proof.
  induction waits as [|a l IH]; [reflexivity|].
  unfold failed_attempts in *; simpl. now rewrite IH.
Qed.

Lemma failed_attempts_app messages (l1 l2 : list pyfloat) :
  failed_attempts st messages (l1 ++ l2)
  = failed_attempts st messages l1 ++ failed_attempts st messages l2.
Proof. apply flat_map_app. Qed.

(** One turn of the loop: the attempt, and after a failure the power of
    line 92, the warning of line 93 and the sleep of line 94; an exception
    of the power or of the sleep leaves the loop. *)
Lemma attempt_step messages attempt rest last_exc tr :
  attempts_loop fpow time_sleep st w messages (attempt :: rest) last_exc tr =
  match attempt_outcome w (tr ++ [ECall (chat_request st messages)]) with
  | Ok content => (Ok (inl content), tr ++ [ECall (chat_request st messages)])
  | Raise e =>
      match fpow (RETRY_BACKOFF st) attempt with
      | Raise e' => (Raise e', tr ++ [ECall (chat_request st messages)])
      | Ok wait =>
          match time_sleep wait with
          | Raise e' =>
              (Raise e',
               tr ++ [ECall (chat_request st messages);
                      ELog WARNING
                        "OpenAI call failed (attempt %d/%d): %s. Retrying in %.1fs"])
          | Ok _ =>
              attempts_loop fpow time_sleep st w messages rest (Some e)
                (tr ++ failed_attempts st messages [wait])
          end
      end
  end.
Proof.
  simpl. unfold try_except, bind, call, lift, ret, log, sleep, emit, attempt_outcome.
  destruct (openai_create w _) as [resp|e]; simpl.
  - destruct (reply_content resp); simpl; [reflexivity|].
    destruct (fpow _ _) as [wait|e']; simpl; [|reflexivity].
    destruct (time_sleep wait); simpl; now rewrite <- !app_assoc.
  - destruct (fpow _ _) as [wait|e']; simpl; [|reflexivity].
    destruct (time_sleep wait); simpl; now rewrite <- !app_assoc.
Qed.

(** A failed attempt whose wait is computed and accepted is followed by the
    rest of the loop. *)
Lemma attempt_step_failure messages attempt wait rest last_exc tr e :
  attempt_outcome w (tr ++ [ECall (chat_request st messages)]) = Raise e ->
  backoff_wait fpow time_sleep st attempt wait ->
  attempts_loop fpow time_sleep st w messages (attempt :: rest) last_exc tr =
  attempts_loop fpow time_sleep st w messages rest (Some e)
    (tr ++ failed_attempts st messages [wait]).
Proof.
  intros He [Hpow Hsleep]. now rewrite attempt_step, He, Hpow, Hsleep.
Qed.

Lemma chat_attempts_request messages :
  chat_attempts [ECall (chat_request st messages)] = 1%nat.
Proof. reflexivity. Qed.

(** While the attempts fail and their waits are computed and accepted, the
    loop goes on, leaving after each failed attempt a warning and a sleep. *)
Lemma attempts_loop_failures messages attempts waits rest last_exc tr :
  Forall2 (backoff_wait fpow time_sleep st) attempts waits ->
  (forall h,
     (chat_attempts tr < chat_attempts h <= chat_attempts tr + List.length attempts)%nat ->
     exists e, attempt_outcome w h = Raise e) ->
  exists last_exc',
    (attempts = [] -> last_exc' = last_exc) /\
    (attempts <> [] -> exists e, last_exc' = Some e) /\
    attempts_loop fpow time_sleep st w messages (attempts ++ rest) last_exc tr =
    attempts_loop fpow time_sleep st w messages rest last_exc'
      (tr ++ failed_attempts st messages waits).
Proof.
  intros Hwaits. revert last_exc tr.
  induction Hwaits as [|a wait l waits Hwait Hrest IH]; intros last_exc tr Hfail.
  - exists last_exc. repeat split; [congruence|].
    unfold failed_attempts; simpl. now rewrite app_nil_r.
  - destruct (Hfail (tr ++ [ECall (chat_request st messages)])) as [e He].
    { rewrite chat_attempts_app, chat_attempts_request. simpl. lia. }
    destruct (IH (Some e) (tr ++ failed_attempts st messages [wait]))
      as (last' & Hnil & Hcons & Hloop).
    { intros h Hh. apply Hfail. revert Hh.
      rewrite chat_attempts_app, failed_attempts_chat. simpl. lia. }
    exists last'. repeat split; [congruence| |].
    + intros _. destruct l as [|a' l'].
      * exists e. now apply Hnil.
      * apply Hcons. congruence.
    + change ((a :: l) ++ rest) with (a :: (l ++ rest)).
      rewrite (attempt_step_failure _ _ _ _ _ _ _ He Hwait), Hloop.
      f_equal. rewrite <- app_assoc. reflexivity.
Qed.

(** C1: when the attempts before the last one fail, each wait
    [RETRY_BACKOFF ** k] is computed and accepted by [time.sleep], and the
    last attempt succeeds, [call_openai_chat] returns the content of the
    last attempt; every failed attempt [k] is followed by a sleep of
    [RETRY_BACKOFF ** k] seconds and then by the next attempt, and nothing
    follows the last attempt. *)
Theorem retry_succeeds_on_last_attempt messages tr reply waits :
  env_set (OPENAI_API_KEY st) = true ->
  (1 <= RETRY_ATTEMPTS st)%Z ->
  chat_attempts tr = 0%nat ->
  Forall2 (backoff_wait fpow time_sleep st)
    (PyVal.range 1 (RETRY_ATTEMPTS st)) waits ->
  (forall h, (chat_attempts h < Z.to_nat (RETRY_ATTEMPTS st))%nat ->
             exists e, attempt_outcome w h = Raise e) ->
  (forall h, chat_attempts h = Z.to_nat (RETRY_ATTEMPTS st) ->
             attempt_outcome w h = Ok reply) ->
  exists added,
    call_openai_chat fpow time_sleep st w messages tr = (Ok (Some reply), tr ++ added) /\
    added = failed_attempts st messages waits
            ++ [ECall (chat_request st messages)] /\
    chat_attempts added = Z.to_nat (RETRY_ATTEMPTS st) /\
    sleeps added = waits /\
    after_last_chat added = [].
Proof.
  intros Hkey Hn Htr Hwaits Hfail Hok.
  assert (Hlen : List.length waits = Z.to_nat (RETRY_ATTEMPTS st - 1)).
  { now rewrite <- (Forall2_length Hwaits), range_length. }
  set (prefix := failed_attempts st messages waits).
  exists (prefix ++ [ECall (chat_request st messages)]).
  repeat split.
  - unfold call_openai_chat. rewrite Hkey; simpl.
    rewrite (range_snoc _ Hn). unfold bind at 1.
    destruct (attempts_loop_failures messages (PyVal.range 1 (RETRY_ATTEMPTS st))
                waits [RETRY_ATTEMPTS st] None tr Hwaits) as (last' & _ & _ & Hloop).
    { intros h Hh. apply Hfail. rewrite range_length in Hh. lia. }
    rewrite Hloop, attempt_step, Hok.
    + fold prefix. now rewrite <- app_assoc.
    + rewrite !chat_attempts_app, chat_attempts_request, failed_attempts_chat.
      lia.
  - rewrite chat_attempts_app, chat_attempts_request. unfold prefix.
    rewrite failed_attempts_chat. lia.
  - rewrite sleeps_app. unfold prefix. rewrite failed_attempts_sleeps.
    simpl. now rewrite app_nil_r.
  - apply after_last_chat_snoc.
Qed.


(** ** Which events a computation can add *)

Section EmitsOnly.

Variable p : @event pyfloat -> bool.

Lemma eo_ret {A} (Q : A -> Prop) (a : A) : Q a -> emits_only p Q (ret a).
Proof.
  intros HQ tr. exists []. simpl. rewrite app_nil_r.
  repeat split. now intros a' [= <-].
Qed.

Lemma eo_raise {A} (Q : A -> Prop) (e : exn) : emits_only p Q (raise e).
Proof.
  intros tr. exists []. simpl. rewrite app_nil_r. repeat split. discriminate.
Qed.

Lemma eo_lift {A} (Q : A -> Prop) (r : result A) :
  (forall a, r = Ok a -> Q a) -> emits_only p Q (lift r).
Proof.
  intros HQ tr. exists []. simpl. rewrite app_nil_r. repeat split. exact HQ.
Qed.

Lemma eo_emit (Q : unit -> Prop) (e : event) :
  p e = true -> Q tt -> emits_only p Q (emit e).
Proof.
  intros Hp HQ tr. exists [e]. simpl. rewrite Hp.
  repeat split. now intros [] _.
Qed.

Lemma eo_call {A} (Q : A -> Prop) (r : request) (outcome : list event -> result A) :
  p (ECall r) = true ->
  (forall h a, outcome h = Ok a -> Q a) ->
  emits_only p Q (call r outcome).
Proof.
  intros Hp HQ tr. exists [ECall r]. simpl. rewrite Hp.
  repeat split. intros a. apply HQ.
Qed.

Lemma eo_bind {A B} (Q : A -> Prop) (R : B -> Prop) (m : M A) (k : A -> M B) :
  emits_only p Q m ->
  (forall a, Q a -> emits_only p R (k a)) ->
  emits_only p R (bind m k).
Proof.
  intros Hm Hk tr. destruct (Hm tr) as (add1 & Htr & Hp & HQ).
  unfold bind. destruct (m tr) as [[a|e] tr1]; simpl in *; subst tr1.
  - destruct (Hk a (HQ a eq_refl) (tr ++ add1)) as (add2 & Htr2 & Hp2 & HR).
    exists (add1 ++ add2). rewrite Htr2, forallb_app, Hp, Hp2, app_assoc.
    repeat split. exact HR.
  - exists add1. repeat split; [exact Hp | discriminate].
Qed.

Lemma eo_try {A} (Q : A -> Prop) (m : M A) (handler : exn -> M A) :
  emits_only p Q m ->
  (forall e, emits_only p Q (handler e)) ->
  emits_only p Q (try_except m handler).
Proof.
  intros Hm Hh tr. destruct (Hm tr) as (add1 & Htr & Hp & HQ).
  unfold try_except. destruct (m tr) as [[a|e] tr1]; simpl in *; subst tr1.
  - exists add1. repeat split; [exact Hp | exact HQ].
  - destruct (Hh e (tr ++ add1)) as (add2 & Htr2 & Hp2 & HR).
    exists (add1 ++ add2). rewrite Htr2, forallb_app, Hp, Hp2, app_assoc.
    repeat split. exact HR.
Qed.

Lemma eo_post {A} (Q Q' : A -> Prop) (m : M A) :
  emits_only p Q m -> (forall a, Q a -> Q' a) -> emits_only p Q' m.
Proof.
  intros Hm HQ tr. destruct (Hm tr) as (added & Htr & Hp & Ha).
  exists added. repeat split; auto.
Qed.

Lemma eo_sleep (Q : unit -> Prop) (seconds : pyfloat) :
  p (ESleep seconds) = true -> Q tt -> emits_only p Q (sleep time_sleep seconds).
Proof.
  intros Hp HQ. unfold sleep. apply eo_bind with (Q := fun _ => True).
  - apply eo_lift. auto.
  - intros [] _. now apply eo_emit.
Qed.

End EmitsOnly.

Lemma eo_mono {A} (p p' : @event pyfloat -> bool) (Q : A -> Prop) (m : M A) :
  (forall e, p e = true -> p' e = true) ->
  emits_only p Q m -> emits_only p' Q m.
Proof.
  intros Hpp Hm tr. destruct (Hm tr) as (added & Htr & Hp & Ha).
  exists added. repeat split; auto.
  rewrite forallb_forall in *. auto.
Qed.

(** One step of a proof that the events of a computation satisfy a
    predicate and that nothing is required of its value. *)
Ltac eo_step :=
  lazymatch goal with
  | |- emits_only _ _ (ret _) => apply eo_ret; first [exact I | reflexivity]
  | |- emits_only _ _ (raise _) => apply eo_raise
  | |- emits_only _ _ (lift _) => apply eo_lift; intros; exact I
  | |- emits_only _ _ (log _ _) => apply eo_emit; [reflexivity | exact I]
  | |- emits_only _ _ (emit _) => apply eo_emit; [reflexivity | exact I]
  | |- emits_only _ _ (sleep _ _) => apply eo_sleep; [reflexivity | exact I]
  | |- emits_only _ _ (call _ _) => apply eo_call; [reflexivity | intros; exact I]
  | |- emits_only _ _ (bind _ _) =>
      apply eo_bind with (Q := fun _ => True); [ | intros ? _ ]
  | |- emits_only _ _ (try_except _ _) => apply eo_try; [ | intros ? ]
  | |- emits_only _ _ (if ?b then _ else _) => destruct b
  | |- emits_only _ _ (match ?x with _ => _ end) => destruct x
  end.

Ltac eo := repeat eo_step.

Lemma fetch_changed_files_quiet repo_obj pr_number :
  emits_only quiet (fun _ => True) (fetch_changed_files_for_pr w repo_obj pr_number).
Proof. unfold fetch_changed_files_for_pr. eo. Qed.

Lemma get_file_snippet_quiet repo_obj pr_number file_path max_lines :
  emits_only quiet (fun _ => True)
    (get_file_snippet_for_pr w repo_obj pr_number file_path max_lines).
Proof. unfold get_file_snippet_for_pr. eo. Qed.

Lemma snippets_loop_quiet repo_obj pr_number max_lines paths snippets :
  emits_only quiet (fun _ => True)
    (snippets_loop w repo_obj pr_number max_lines paths snippets).
Proof.
  revert snippets. induction paths as [|path rest IH]; intros snippets; simpl.
  - eo.
  - apply eo_bind with (Q := fun _ => True); [ | intros ? _; apply IH ].
    apply eo_try; [apply get_file_snippet_quiet | intros; eo].
Qed.

Lemma prepare_snippets_quiet repo_obj pr_number changed_files cfg :
  emits_only quiet (fun _ => True)
    (prepare_snippets st w repo_obj pr_number changed_files cfg).
Proof.
  unfold prepare_snippets.
  apply eo_bind with (Q := fun _ => True); [eo | intros ? _].
  apply snippets_loop_quiet.
Qed.

Lemma silent_quiet (e : @event pyfloat) : silent e = true -> quiet e = true.
Proof. destruct e as [[]| | |]; simpl; auto. Qed.

(** The builders only log, and what they return is well formed. *)
Lemma build_pr_prompt_spec title body changed_files snippets repo_full number cfg :
  emits_only (@silent pyfloat) (fun msgs => well_formed msgs = true)
    (build_pr_prompt py_str str_format title body changed_files snippets
       repo_full number cfg).
Proof. unfold build_pr_prompt. eo. Qed.

Lemma build_issue_prompt_spec title body repo_full number cfg :
  emits_only (@silent pyfloat) (fun msgs => well_formed msgs = true)
    (build_issue_prompt py_str str_format title body repo_full number cfg).
Proof. unfold build_issue_prompt. eo. Qed.

Lemma build_pr_prompt_quiet title body changed_files snippets repo_full number cfg :
  emits_only (@quiet pyfloat) (fun _ => True)
    (build_pr_prompt py_str str_format title body changed_files snippets
       repo_full number cfg).
Proof.
  apply eo_mono with (p := silent); [apply silent_quiet|].
  eapply eo_post; [apply build_pr_prompt_spec | auto].
Qed.

Lemma build_issue_prompt_quiet title body repo_full number cfg :
  emits_only (@quiet pyfloat) (fun _ => True)
    (build_issue_prompt py_str str_format title body repo_full number cfg).
Proof.
  apply eo_mono with (p := silent); [apply silent_quiet|].
  eapply eo_post; [apply build_issue_prompt_spec | auto].
Qed.

(** Both handlers and [main] post nothing when the caller gives no
    suggestion. *)
Section NoSuggestion.

Variable p : @event pyfloat -> bool.
Hypothesis quiet_p : forall e, quiet e = true -> p e = true.
Hypothesis caller :
  forall messages,
    emits_only p (fun r => no_suggestion r = true)
      (call_openai_chat fpow time_sleep st w messages).

Lemma p_log lvl fmt : p (ELog lvl fmt) = true.
Proof. now apply quiet_p. Qed.

Lemma handle_pull_request_no_suggestion payload cfg :
  emits_only p (fun _ => True)
    (handle_pull_request fpow time_sleep py_str str_format st w payload cfg).
Proof.
  unfold handle_pull_request.
  repeat (apply eo_bind with (Q := fun _ => True);
          [apply eo_lift; intros; exact I | intros ? _]).
  destruct (_ || _); [apply eo_emit; [apply p_log | exact I]|].
  apply eo_bind with (Q := fun _ => True);
    [apply eo_emit; [apply p_log | exact I] | intros ? _].
  apply eo_bind with (Q := fun _ => True); [ | intros changed_files _].
  { apply eo_mono with (p := quiet); [exact quiet_p|].
    destruct gh_present; [|eo].
    apply eo_bind with (Q := fun _ => True); [eo | intros ? _].
    apply fetch_changed_files_quiet. }
  apply eo_bind with (Q := fun _ => True); [ | intros snippets _].
  { apply eo_mono with (p := quiet); [exact quiet_p|].
    apply prepare_snippets_quiet. }
  apply eo_bind with (Q := fun _ => True); [ | intros messages _].
  { apply eo_mono with (p := quiet); [exact quiet_p|].
    apply build_pr_prompt_quiet. }
  apply eo_bind with (Q := fun r => no_suggestion r = true);
    [apply caller | intros suggestion Hnone].
  destruct suggestion as [s|]; simpl in Hnone.
  - rewrite Hnone. apply eo_emit; [apply p_log | exact I].
  - apply eo_emit; [apply p_log | exact I].
Qed.

Lemma handle_issue_no_suggestion payload cfg :
  emits_only p (fun _ => True)
    (handle_issue fpow time_sleep py_str str_format st w payload cfg).
Proof.
  unfold handle_issue.
  repeat (apply eo_bind with (Q := fun _ => True);
          [apply eo_lift; intros; exact I | intros ? _]).
  destruct (_ || _); [apply eo_emit; [apply p_log | exact I]|].
  apply eo_bind with (Q := fun _ => True);
    [apply eo_emit; [apply p_log | exact I] | intros ? _].
  apply eo_bind with (Q := fun _ => True); [ | intros messages _].
  { apply eo_mono with (p := quiet); [exact quiet_p|].
    apply build_issue_prompt_quiet. }
  apply eo_bind with (Q := fun r => no_suggestion r = true);
    [apply caller | intros suggestion Hnone].
  destruct suggestion as [s|]; simpl in Hnone.
  - rewrite Hnone. apply eo_emit; [apply p_log | exact I].
  - apply eo_emit; [apply p_log | exact I].
Qed.

Lemma main_no_suggestion event cfg :
  emits_only p (fun _ => True)
    (main fpow time_sleep py_str str_format st w event cfg).
Proof.
  unfold main. apply eo_try.
  - apply eo_bind with (Q := fun _ => True);
      [apply eo_lift; intros; exact I | intros is_pr _].
    destruct is_pr.
    + apply eo_bind with (Q := fun _ => True);
        [apply handle_pull_request_no_suggestion | intros ? _].
      apply eo_ret; exact I.
    + apply eo_bind with (Q := fun _ => True);
        [apply eo_lift; intros; exact I | intros is_issue _].
      destruct is_issue.
      * apply eo_bind with (Q := fun _ => True);
          [apply handle_issue_no_suggestion | intros ? _].
        apply eo_ret; exact I.
      * apply eo_bind with (Q := fun _ => True);
          [apply eo_emit; [apply p_log | exact I] | intros ? _].
        apply eo_ret; exact I.
  - intros e. apply eo_bind with (Q := fun _ => True);
      [apply eo_emit; [apply p_log | exact I] | intros ? _].
    apply eo_ret; exact I.
Qed.

End NoSuggestion.

(** ** Without a model credential *)

Lemma quiet_trace added :
  forallb (@quiet pyfloat) added = true ->
  chat_attempts added = 0%nat /\ comments added = [] /\ posts added = [].
Proof.
  induction added as [|e l IH]; simpl; [auto|].
  rewrite andb_true_iff. intros [He Hl]. destruct (IH Hl) as (Hc & Hm & Hp).
  unfold chat_attempts, posts in *. simpl.
  unfold quiet in He. rewrite andb_true_iff, !negb_true_iff in He.
  destruct He as [-> He]. rewrite He.
  repeat split; auto.
  destruct e as [[]| | |]; simpl in *; auto; discriminate.
Qed.

Lemma not_post_trace added :
  forallb (@not_post pyfloat) added = true -> posts added = [].
Proof.
  induction added as [|e l IH]; simpl; [auto|].
  rewrite andb_true_iff. intros [He Hl]. unfold posts in *. simpl.
  unfold not_post in He. rewrite negb_true_iff in He. rewrite He. auto.
Qed.

Lemma call_openai_chat_no_key messages tr :
  env_set (OPENAI_API_KEY st) = false ->
  call_openai_chat fpow time_sleep st w messages tr =
  (Ok None,
   tr ++ [ELog INFO "Skipping OpenAI call because OPENAI_API_KEY is not set."]).
Proof. intros Hkey. unfold call_openai_chat. now rewrite Hkey. Qed.

Lemma call_openai_chat_no_key_quiet messages :
  env_set (OPENAI_API_KEY st) = false ->
  emits_only quiet (fun r => no_suggestion r = true)
    (call_openai_chat fpow time_sleep st w messages).
Proof.
  intros Hkey tr. rewrite call_openai_chat_no_key by exact Hkey.
  eexists. simpl. repeat split. now intros a [= <-].
Qed.

(** C3: without a model credential [call_openai_chat] attempts no
    completion call and returns [None], and neither handler (nor [main])
    attempts a completion call or posts a comment, whatever the event. *)
Theorem no_credential_no_call_no_comment :
  env_set (OPENAI_API_KEY st) = false ->
  (forall messages tr,
     exists added,
       call_openai_chat fpow time_sleep st w messages tr = (Ok None, tr ++ added) /\
       chat_attempts added = 0%nat) /\
  (forall payload cfg tr,
     exists added,
       snd (handle_pull_request fpow time_sleep py_str str_format st w payload cfg tr)
       = tr ++ added /\
       chat_attempts added = 0%nat /\ comments added = []) /\
  (forall payload cfg tr,
     exists added,
       snd (handle_issue fpow time_sleep py_str str_format st w payload cfg tr)
       = tr ++ added /\
       chat_attempts added = 0%nat /\ comments added = []) /\
  (forall event cfg tr,
     exists added,
       snd (main fpow time_sleep py_str str_format st w event cfg tr) = tr ++ added /\
       chat_attempts added = 0%nat /\ comments added = []).
Proof.
  intros Hkey.
  assert (Hcaller : forall messages,
             emits_only quiet (fun r => no_suggestion r = true)
               (call_openai_chat fpow time_sleep st w messages))
    by (intros; now apply call_openai_chat_no_key_quiet).
  split; [|split; [|split]].
  - intros messages tr. eexists. split.
    + now apply call_openai_chat_no_key.
    + reflexivity.
  - intros payload cfg tr.
    destruct (handle_pull_request_no_suggestion quiet (fun e H => H) Hcaller
                payload cfg tr) as (added & Htr & Hq & _).
    exists added. destruct (quiet_trace _ Hq) as (? & ? & _). auto.
  - intros payload cfg tr.
    destruct (handle_issue_no_suggestion quiet (fun e H => H) Hcaller
                payload cfg tr) as (added & Htr & Hq & _).
    exists added. destruct (quiet_trace _ Hq) as (? & ? & _). auto.
  - intros event cfg tr.
    destruct (main_no_suggestion quiet (fun e H => H) Hcaller
                event cfg tr) as (added & Htr & Hq & _).
    exists added. destruct (quiet_trace _ Hq) as (? & ? & _). auto.
Qed.

(** ** Blank replies *)

Lemma lstrip_all_space s : PyStr.all_space s = true -> PyStr.lstrip s = "".
Proof.
  unfold PyStr.all_space. induction s as [|c s IH]; simpl; [reflexivity|].
  rewrite andb_true_iff. intros [-> Hs]. auto.
Qed.

Lemma strip_all_space s : PyStr.all_space s = true -> PyStr.strip s = "".
Proof. intros Hs. unfold PyStr.strip. now rewrite lstrip_all_space. Qed.

Lemma reply_content_blank resp r :
  raw_content resp = Ok (PStr r) -> PyStr.all_space r = true ->
  reply_content resp = Ok "".
Proof.
  intros Hraw Hr. unfold reply_content. rewrite Hraw. simpl.
  now rewrite strip_all_space.
Qed.

Lemma range_first n :
  (1 <= n)%Z -> exists rest, PyVal.range 1 (n + 1) = 1%Z :: rest.
Proof.
  intros Hn. unfold PyVal.range.
  replace (Z.to_nat (n + 1 - 1)) with (S (Z.to_nat (n - 1))) by lia.
  cbn [seq map]. eexists. reflexivity.
Qed.

(** An attempt that succeeds at once is the only event of the call. *)
Lemma first_attempt_succeeds messages tr reply :
  env_set (OPENAI_API_KEY st) = true ->
  (1 <= RETRY_ATTEMPTS st)%Z ->
  attempt_outcome w (tr ++ [ECall (chat_request st messages)]) = Ok reply ->
  call_openai_chat fpow time_sleep st w messages tr
  = (Ok (Some reply), tr ++ [ECall (chat_request st messages)]).
Proof.
  intros Hkey Hn Hok. unfold call_openai_chat. rewrite Hkey. simpl.
  destruct (range_first _ Hn) as [rest ->].
  unfold bind at 1. now rewrite attempt_step, Hok.
Qed.

Section BlankReplies.

Hypothesis blank :
  forall h, exists resp r,
    openai_create w h = Ok resp /\
    raw_content resp = Ok (PStr r) /\ PyStr.all_space r = true.

Lemma attempts_loop_blank messages attempts last_exc :
  emits_only not_post
    (fun r => match r with inl c => c = "" | inr _ => True end)
    (attempts_loop fpow time_sleep st w messages attempts last_exc).
Proof.
  revert last_exc. induction attempts as [|a l IH]; intros last_exc; simpl.
  - apply eo_ret. exact I.
  - apply eo_try.
    + apply eo_bind with
        (Q := fun resp => exists r, raw_content resp = Ok (PStr r)
                                    /\ PyStr.all_space r = true).
      * apply eo_call; [reflexivity|]. intros h resp Hresp.
        destruct (blank h) as (resp' & r & Hh & Hraw & Hr).
        rewrite Hh in Hresp. injection Hresp as <-. eauto.
      * intros resp (r & Hraw & Hr).
        apply eo_bind with (Q := fun c => c = "").
        -- apply eo_lift. intros c Hc.
           rewrite (reply_content_blank _ _ Hraw Hr) in Hc. congruence.
        -- intros c ->. now apply eo_ret.
    + intros e.
      apply eo_bind with (Q := fun _ => True);
        [apply eo_lift; auto | intros wait _].
      apply eo_bind with (Q := fun _ => True);
        [apply eo_emit; [reflexivity | exact I] | intros ? _].
      apply eo_bind with (Q := fun _ => True);
        [apply eo_sleep; [reflexivity | exact I] | intros ? _].
      apply IH.
Qed.

Lemma call_openai_chat_blank messages :
  emits_only not_post (fun r => no_suggestion r = true)
    (call_openai_chat fpow time_sleep st w messages).
Proof.
  unfold call_openai_chat. destruct (negb _).
  - apply eo_bind with (Q := fun _ => True);
      [apply eo_emit; [reflexivity | exact I] | intros ? _].
    now apply eo_ret.
  - eapply eo_bind; [apply attempts_loop_blank|].
    intros [c|last] Hr; simpl in Hr.
    + subst c. now apply eo_ret.
    + apply eo_bind with (Q := fun _ => True);
        [apply eo_emit; [reflexivity | exact I] | intros ? _].
      apply eo_bind with (Q := fun _ => True); [ | intros ? _; now apply eo_ret].
      destruct last; [apply eo_emit; [reflexivity | exact I] | apply eo_raise].
Qed.

End BlankReplies.

Lemma quiet_not_post (e : @event pyfloat) : quiet e = true -> not_post e = true.
Proof. unfold quiet, not_post. now rewrite andb_true_iff. Qed.

(** C10: when the completion call succeeds with an empty or
    whitespace-only reply, [call_openai_chat] returns the empty string
    after one attempt, and neither handler posts a comment or touches a
    label, whatever the event. *)
Theorem blank_reply_is_no_suggestion :
  env_set (OPENAI_API_KEY st) = true ->
  (1 <= RETRY_ATTEMPTS st)%Z ->
  (forall h, exists resp r,
     openai_create w h = Ok resp /\
     raw_content resp = Ok (PStr r) /\ PyStr.all_space r = true) ->
  (forall messages tr,
     call_openai_chat fpow time_sleep st w messages tr
     = (Ok (Some ""), tr ++ [ECall (chat_request st messages)])) /\
  (forall payload cfg tr,
     exists added,
       snd (handle_pull_request fpow time_sleep py_str str_format st w payload cfg tr)
       = tr ++ added /\ posts added = []) /\
  (forall payload cfg tr,
     exists added,
       snd (handle_issue fpow time_sleep py_str str_format st w payload cfg tr)
       = tr ++ added /\ posts added = []).
Proof.
  intros Hkey Hn Hblank. split; [|split].
  - intros messages tr. apply first_attempt_succeeds; auto.
    unfold attempt_outcome.
    destruct (Hblank (tr ++ [ECall (chat_request st messages)]))
      as (resp & r & -> & Hraw & Hr).
    now apply reply_content_blank with r.
  - intros payload cfg tr.
    destruct (handle_pull_request_no_suggestion not_post quiet_not_post
                (call_openai_chat_blank Hblank) payload cfg tr)
      as (added & Htr & Hp & _).
    exists added. split; [exact Htr | now apply not_post_trace].
  - intros payload cfg tr.
    destruct (handle_issue_no_suggestion not_post quiet_not_post
                (call_openai_chat_blank Hblank) payload cfg tr)
      as (added & Htr & Hp & _).
    exists added. split; [exact Htr | now apply not_post_trace].
Qed.

(** ** The prompt builders *)

Lemma emits_only_value {A} (p : @event pyfloat -> bool) (Q : A -> Prop)
    (m : M A) tr a tr' :
  emits_only p Q m -> m tr = (Ok a, tr') -> Q a.
Proof.
  intros Hm Hrun. destruct (Hm tr) as (added & _ & _ & HQ).
  apply HQ. now rewrite Hrun.
Qed.

Lemma build_issue_prompt_returns title body repo_full number d tr :
  exists msgs tr',
    build_issue_prompt py_str str_format title body repo_full number (PDict d) tr
    = (Ok msgs, tr').
Proof.
  unfold build_issue_prompt, bind, lift, try_except, ret, log, emit. simpl.
  destruct (PyVal.truthy _); [destruct (format_template _ _ _)|]; eauto.
Qed.

Lemma build_pr_prompt_returns title body changed_files snippets repo_full
    number d v paths tr :
  PyVal.get (PDict d) "sensitive_paths" (PList []) = Ok v ->
  PyVal.iter v = Ok paths ->
  exists msgs tr',
    build_pr_prompt py_str str_format title body changed_files snippets
      repo_full number (PDict d) tr
    = (Ok msgs, tr').
Proof.
  intros [= <-] Hiter.
  unfold build_pr_prompt, bind, lift, try_except, ret, log, emit. simpl.
  destruct (PyVal.truthy _); [destruct (format_template _ _ _)|];
    simpl; rewrite Hiter; eauto.
Qed.

(** C5: a conversation returned by either builder is not empty and begins
    with a message of role [system]; [build_issue_prompt] returns one for
    every configuration mapping, [build_pr_prompt] for every configuration
    mapping whose [sensitive_paths] can be iterated. *)
Theorem prompts_are_well_formed title body changed_files snippets repo_full
    number tr :
  (forall cfg msgs tr',
     build_pr_prompt py_str str_format title body changed_files snippets
       repo_full number cfg tr = (Ok msgs, tr') ->
     well_formed msgs = true) /\
  (forall cfg msgs tr',
     build_issue_prompt py_str str_format title body repo_full number cfg tr
     = (Ok msgs, tr') ->
     well_formed msgs = true) /\
  (forall d, exists msgs tr',
     build_issue_prompt py_str str_format title body repo_full number
       (PDict d) tr = (Ok msgs, tr')) /\
  (forall d v paths,
     PyVal.get (PDict d) "sensitive_paths" (PList []) = Ok v ->
     PyVal.iter v = Ok paths ->
     exists msgs tr',
       build_pr_prompt py_str str_format title body changed_files snippets
         repo_full number (PDict d) tr = (Ok msgs, tr')).
Proof.
  split; [|split; [|split]].
  - intros cfg msgs tr' Hrun.
    exact (emits_only_value _ _ _ _ _ _ (build_pr_prompt_spec _ _ _ _ _ _ _) Hrun).
  - intros cfg msgs tr' Hrun.
    exact (emits_only_value _ _ _ _ _ _ (build_issue_prompt_spec _ _ _ _ _) Hrun).
  - intros d. apply build_issue_prompt_returns.
  - intros d v paths. apply build_pr_prompt_returns.
Qed.

(** The user content when no template is configured or the template fails. *)
Lemma issue_template_fallback title body repo_full number d template tr :
  PyVal.get (PDict d) "issue_prompt" (PStr "") = Ok template ->
  (PyVal.truthy template = false \/
   exists e,
     format_template str_format template
       [ ("title", title); ("body", body);
         ("repo_full", repo_full); ("issue_number", number) ] = Raise e) ->
  exists msgs tr',
    build_issue_prompt py_str str_format title body repo_full number (PDict d) tr
    = (Ok msgs, tr') /\
    last_content msgs = Some (PStr (issue_default_content py_str title body)).
Proof.
  intros [= <-] Hcase.
  unfold build_issue_prompt, bind, lift, try_except, ret, log, emit. simpl.
  destruct (PyVal.truthy _).
  - destruct Hcase as [|[e ->]]; [discriminate|]. eauto.
  - eauto.
Qed.

Lemma pr_template_absent title body changed_files snippets repo_full number
    d template v paths tr :
  PyVal.get (PDict d) "pr_prompt" (PStr "") = Ok template ->
  PyVal.truthy template = false ->
  PyVal.get (PDict d) "sensitive_paths" (PList []) = Ok v ->
  PyVal.iter v = Ok paths ->
  exists msgs tr',
    build_pr_prompt py_str str_format title body changed_files snippets
      repo_full number (PDict d) tr = (Ok msgs, tr') /\
    last_content msgs
    = Some (PStr (pr_default_content py_str title body
                    (changed_files_text changed_files))).
Proof.
  intros [= <-] Htruthy [= <-] Hiter.
  unfold build_pr_prompt, bind, lift, try_except, ret, log, emit. simpl.
  rewrite Htruthy. simpl. rewrite Hiter. eauto.
Qed.

Lemma pr_template_failure title body changed_files snippets repo_full number
    d template e v paths tr :
  PyVal.get (PDict d) "pr_prompt" (PStr "") = Ok template ->
  PyVal.truthy template = true ->
  format_template str_format template
    [ ("title", title); ("body", body);
      ("changed_files_list", PStr (changed_files_text changed_files));
      ("repo_full", repo_full); ("pr_number", number) ] = Raise e ->
  PyVal.get (PDict d) "sensitive_paths" (PList []) = Ok v ->
  PyVal.iter v = Ok paths ->
  exists msgs tr',
    build_pr_prompt py_str str_format title body changed_files snippets
      repo_full number (PDict d) tr = (Ok msgs, tr') /\
    last_content msgs
    = Some (PStr (pr_format_failure_content py_str title body
                    (changed_files_text changed_files))).
Proof.
  intros [= <-] Htruthy Hfmt [= <-] Hiter.
  unfold build_pr_prompt, bind, lift, try_except, ret, log, emit. simpl.
  rewrite Htruthy, Hfmt. simpl. rewrite Hiter. eauto.
Qed.

Lemma string_length_append (s t : string) :
  String.length (s ++ t)%string = (String.length s + String.length t)%nat.
Proof. induction s as [|c s IH]; simpl; [reflexivity | now rewrite IH]. Qed.

(** The two user contents of [build_pr_prompt] are never the same text. *)
Lemma pr_fallbacks_differ title body changed_files_list :
  pr_format_failure_content py_str title body changed_files_list
  <> pr_default_content py_str title body changed_files_list.
Proof.
  intros Heq. apply (f_equal String.length) in Heq.
  unfold pr_format_failure_content, pr_default_content in Heq.
  rewrite !string_length_append in Heq. simpl in Heq. lia.
Qed.

(** ** The snippet mapping *)





(** ** The dispatcher and the module body *)

Lemma bind_ok {A B} (m : M A) (k : A -> M B) tr a tr1 :
  m tr = (Ok a, tr1) -> bind m k tr = k a tr1.
Proof. intros Hm. unfold bind. now rewrite Hm. Qed.

Lemma silent_trace added :
  forallb (@silent pyfloat) added = true ->
  chat_attempts added = 0%nat /\ hosting_calls added = [] /\
  network_calls added = [].
Proof.
  induction added as [|e l IH]; simpl; [auto|].
  rewrite andb_true_iff. intros [He Hl]. destruct (IH Hl) as (Hc & Hh & Hn).
  unfold chat_attempts, network_calls in *.
  destruct e; simpl in *; try discriminate; auto.
Qed.

Lemma main_unrecognised d cfg tr :
  PyVal.has_key "pull_request" d = false ->
  PyVal.has_key "issue" d = false ->
  main fpow time_sleep py_str str_format st w (PDict d) cfg tr
  = (Ok 0%Z,
     tr ++ [ELog INFO "Event is not a pull_request or issue; nothing to do."]).
Proof.
  intros Hpr Hissue.
  unfold main, try_except, bind, lift. simpl. now rewrite Hpr, Hissue.
Qed.

Lemma load_config_logs s tr :
  exists cfg added,
    load_config (pyfloat := pyfloat) s tr = (Ok cfg, tr ++ added) /\
    network_calls added = [].
Proof.
  unfold load_config, try_except, bind, lift, log, emit, ret.
  destruct (cfg_exists s); [destruct (cfg_yaml s) as [v|e]|]; simpl.
  - exists (if PyVal.truthy v then v else PDict []), [].
    now rewrite app_nil_r.
  - eexists; eexists. split; reflexivity.
  - eexists; eexists. split; reflexivity.
Qed.

(** When the event file is there, the module body only logs before it
    calls [main], on the parsed event or on the empty mapping. *)
Lemma script_reaches_main s tr :
  env_set (EVENT_PATH s) = true ->
  event_path_exists s = true ->
  exists cfg added,
    script fpow time_sleep py_str str_format st w s tr
    = main fpow time_sleep py_str str_format st w
        (match event_json s with Ok v => v | Raise _ => PDict [] end)
        cfg (tr ++ added) /\
    network_calls added = [] /\
    (forall e, event_json s = Raise e ->
               In (ELog EXCEPTION "Failed to parse GITHUB_EVENT_PATH JSON") added).
Proof.
  intros Hpath Hexists. unfold script. rewrite Hpath, Hexists. simpl.
  set (event := match event_json s with Ok v => v | Raise _ => PDict [] end).
  set (logs := match event_json s with
               | Ok _ => []
               | Raise _ => [ELog (pyfloat := pyfloat) EXCEPTION
                               "Failed to parse GITHUB_EVENT_PATH JSON"]
               end).
  rewrite bind_ok with (a := event) (tr1 := tr ++ logs).
  2:{ unfold try_except, lift, bind, log, emit, ret, event, logs.
      destruct (event_json s); simpl; [now rewrite app_nil_r | reflexivity]. }
  destruct (load_config_logs s (tr ++ logs)) as (cfg & added & Hcfg & Hnet).
  rewrite bind_ok with (1 := Hcfg).
  exists cfg.
  destruct (negb (env_set (OPENAI_API_KEY st))).
  - eexists. split; [|split].
    + unfold bind at 1, log, emit. rewrite <- !app_assoc. reflexivity.
    + unfold network_calls in *. rewrite !filter_app, Hnet.
      unfold logs. now destruct (event_json s).
    + intros e He. unfold logs. rewrite He. simpl. now left.
  - eexists. split; [|split].
    + unfold bind at 1, ret. rewrite <- !app_assoc. reflexivity.
    + unfold network_calls in *. rewrite !filter_app, Hnet.
      unfold logs. now destruct (event_json s).
    + intros e He. unfold logs. rewrite He. simpl. now left.
Qed.

(** C8: on an event mapping with neither a [pull_request] nor an [issue]
    key, [main] only emits one informational log line and the process
    exits with status 0 without any network call. *)
Theorem unrecognised_event_is_noop d :
  PyVal.has_key "pull_request" d = false ->
  PyVal.has_key "issue" d = false ->
  (forall cfg tr,
     main fpow time_sleep py_str str_format st w (PDict d) cfg tr
     = (Ok 0%Z,
        tr ++ [ELog INFO "Event is not a pull_request or issue; nothing to do."])) /\
  (forall s tr,
     event_json s = Ok (PDict d) ->
     exists added,
       script fpow time_sleep py_str str_format st w s tr = (Ok 0%Z, tr ++ added) /\
       network_calls added = []).
Proof.
  intros Hpr Hissue. split.
  - intros cfg tr. now apply main_unrecognised.
  - intros s tr Hevent.
    destruct (env_set (EVENT_PATH s)) eqn:Hpath;
      [destruct (event_path_exists s) eqn:Hexists|].
    + destruct (script_reaches_main s tr Hpath Hexists) as (cfg & added & -> & Hnet & _).
      rewrite Hevent, main_unrecognised by assumption.
      eexists. rewrite <- app_assoc. split; [reflexivity|].
      unfold network_calls in *. now rewrite filter_app, Hnet.
    + unfold script. rewrite Hpath, Hexists. simpl.
      eexists. split; reflexivity.
    + unfold script. rewrite Hpath. simpl.
      eexists. split; reflexivity.
Qed.

(** C2, as the code has it: when the event file cannot be parsed the
    failure is logged, the event is the empty mapping, and the process
    exits with status 0 without any network call. *)
Theorem unparsable_event_exits_zero s e tr :
  env_set (EVENT_PATH s) = true ->
  event_path_exists s = true ->
  event_json s = Raise e ->
  exists added,
    script fpow time_sleep py_str str_format st w s tr = (Ok 0%Z, tr ++ added) /\
    In (ELog EXCEPTION "Failed to parse GITHUB_EVENT_PATH JSON") added /\
    network_calls added = [].
Proof.
  intros Hpath Hexists Hevent.
  destruct (script_reaches_main s tr Hpath Hexists) as (cfg & added & -> & Hnet & Hlog).
  rewrite Hevent, main_unrecognised by reflexivity.
  eexists. rewrite <- app_assoc. split; [reflexivity|]. split.
  - apply in_or_app. left. now apply Hlog with e.
  - unfold network_calls in *. now rewrite filter_app, Hnet.
Qed.

(** ** Posting the suggestion *)

Lemma safe_post_succeeds repo number body labels tr :
  gh_present st = true ->
  hosting_accepts w labels ->
  safe_post_comment_and_label st w repo number body tr
  = (Ok tt,
     tr ++ map ECall
             ([ get_repo repo; get_issue repo number;
                create_comment repo number body; get_labels repo ]
              ++ label_calls st repo number labels)).
Proof.
  intros Hgh (Hrepo & Hissue & Hcomment & Hlabels & Hcreate & Hadd).
  unfold safe_post_comment_and_label, label_calls. rewrite Hgh. simpl.
  unfold try_except, bind, call.
  rewrite Hrepo, Hissue, Hcomment, Hlabels.
  destruct (existsb _ labels); simpl.
  - rewrite Hadd. now rewrite <- !app_assoc.
  - rewrite Hcreate, Hadd. now rewrite <- !app_assoc.
Qed.


Lemma hosting_calls_map (calls : list (@request pyfloat)) :
  forallb (fun r => negb (is_chat (ECall r))) calls = true ->
  hosting_calls (map ECall calls) = calls.
Proof.
  induction calls as [|r l IH]; simpl; [reflexivity|].
  rewrite andb_true_iff. intros [Hr Hl].
  rewrite IH by exact Hl. now destruct r.
Qed.

Lemma chat_attempts_map (calls : list (@request pyfloat)) :
  forallb (fun r => negb (is_chat (ECall r))) calls = true ->
  chat_attempts (map ECall calls) = 0%nat.
Proof.
  unfold chat_attempts. induction calls as [|r l IH]; simpl; [reflexivity|].
  rewrite andb_true_iff. intros [Hr Hl].
  rewrite negb_true_iff in Hr. rewrite Hr. auto.
Qed.


(** * Further properties of the code *)

(** ** The retry loop in general *)

Lemma map_seq_from {A} (f : nat -> A) (a b : nat) :
  map f (seq a b) = map (fun i => f (a + i)%nat) (seq 0 b).
Proof.
  revert a f. induction b as [|b IH]; intros a f; [reflexivity|].
  cbn [seq map]. rewrite Nat.add_0_r. f_equal.
  rewrite (IH (S a)), (IH 1%nat). apply map_ext. intros i.
  f_equal. lia.
Qed.

Lemma range_app lo mid hi :
  (lo <= mid <= hi)%Z ->
  PyVal.range lo hi = PyVal.range lo mid ++ PyVal.range mid hi.
Proof.
  intros Hm. unfold PyVal.range.
  replace (Z.to_nat (hi - lo)) with (Z.to_nat (mid - lo) + Z.to_nat (hi - mid))%nat by lia.
  rewrite seq_app, map_app. f_equal.
  rewrite map_seq_from. apply map_ext. intros i. lia.
Qed.

Lemma range_cons lo hi :
  (lo < hi)%Z -> PyVal.range lo hi = lo :: PyVal.range (lo + 1) hi.
Proof.
  intros Hlt. rewrite (range_app lo (lo + 1) hi) by lia.
  unfold PyVal.range at 1.
  replace (Z.to_nat (lo + 1 - lo)) with 1%nat by lia.
  cbn [seq map app]. f_equal. lia.
Qed.

Lemma range_empty lo hi : (hi <= lo)%Z -> PyVal.range lo hi = [].
Proof.
  intros Hle. unfold PyVal.range.
  now replace (Z.to_nat (hi - lo)) with 0%nat by lia.
Qed.

(** X1: the loop stops at the first attempt that succeeds.  When attempts
    [1 .. k-1] fail, each wait [RETRY_BACKOFF ** 1 .. RETRY_BACKOFF ** (k-1)]
    is computed and accepted by [time.sleep], and attempt
    [k <= RETRY_ATTEMPTS] succeeds, [call_openai_chat] returns its content
    after exactly [k] completion calls and these [k-1] sleeps, and makes no
    further call. *)
Theorem retry_stops_at_first_success messages tr reply (k : nat) waits :
  env_set (OPENAI_API_KEY st) = true ->
  (1 <= k)%nat ->
  (Z.of_nat k <= RETRY_ATTEMPTS st)%Z ->
  chat_attempts tr = 0%nat ->
  Forall2 (backoff_wait fpow time_sleep st) (PyVal.range 1 (Z.of_nat k)) waits ->
  (forall h, (chat_attempts h < k)%nat ->
             exists e, attempt_outcome w h = Raise e) ->
  (forall h, chat_attempts h = k -> attempt_outcome w h = Ok reply) ->
  exists added,
    call_openai_chat fpow time_sleep st w messages tr = (Ok (Some reply), tr ++ added) /\
    added = failed_attempts st messages waits
            ++ [ECall (chat_request st messages)] /\
    chat_attempts added = k /\
    sleeps added = waits /\
    List.length waits = (k - 1)%nat.
Proof.
  intros Hkey Hk HkN Htr Hwaits Hfail Hok.
  assert (Hlen : List.length waits = (k - 1)%nat).
  { rewrite <- (Forall2_length Hwaits), range_length. lia. }
  set (prefix := failed_attempts st messages waits).
  exists (prefix ++ [ECall (chat_request st messages)]).
  repeat split.
  - unfold call_openai_chat. rewrite Hkey; simpl.
    rewrite (range_app 1 (Z.of_nat k) (RETRY_ATTEMPTS st + 1)) by lia.
    rewrite (range_cons (Z.of_nat k)) by lia.
    unfold bind at 1.
    destruct (attempts_loop_failures messages (PyVal.range 1 (Z.of_nat k)) waits
                (Z.of_nat k :: PyVal.range (Z.of_nat k + 1) (RETRY_ATTEMPTS st + 1))
                None tr Hwaits) as (last' & _ & _ & Hloop).
    { intros h Hh. apply Hfail. rewrite range_length in Hh. lia. }
    rewrite Hloop, attempt_step, Hok.
    + fold prefix. now rewrite <- app_assoc.
    + rewrite !chat_attempts_app, chat_attempts_request, failed_attempts_chat.
      lia.
  - rewrite chat_attempts_app, chat_attempts_request. unfold prefix.
    rewrite failed_attempts_chat. lia.
  - rewrite sleeps_app. unfold prefix. rewrite failed_attempts_sleeps.
    simpl. now rewrite app_nil_r.
  - exact Hlen.
Qed.

(** X3: with the credential set and [RETRY_ATTEMPTS] at most 0 the loop
    body never runs: [call_openai_chat] makes no completion call, logs the
    final error and then raises [AttributeError] at line 96, where
    [last_exc] is still [None]. *)
Theorem nonpositive_retry_attempts_raise messages tr :
  env_set (OPENAI_API_KEY st) = true ->
  (RETRY_ATTEMPTS st <= 0)%Z ->
  call_openai_chat fpow time_sleep st w messages tr
  = (Raise "AttributeError",
     tr ++ [ELog ERROR "OpenAI calls failed after %d attempts: %s"]).
Proof.
  intros Hkey Hn. unfold call_openai_chat. rewrite Hkey; simpl.
  rewrite range_empty by lia. reflexivity.
Qed.

(** ** What [call_openai_chat] can do at most *)

Lemma bind_raise {A B} (m : M A) (k : A -> M B) tr e tr1 :
  m tr = (Raise e, tr1) -> bind m k tr = (Raise e, tr1).
Proof. intros Hm. unfold bind. now rewrite Hm. Qed.

Lemma rstrip_idempotent s : PyStr.rstrip (PyStr.rstrip s) = PyStr.rstrip s.
Proof.
  induction s as [|c s IH]; [reflexivity|].
  cbn [PyStr.rstrip]. destruct (PyStr.rstrip s) as [|c' r] eqn:Hr.
  - destruct (PyStr.isspace c) eqn:Hc; [reflexivity|].
    cbn [PyStr.rstrip]. now rewrite Hc.
  - cbn [PyStr.rstrip]. cbn [PyStr.rstrip] in IH.
    destruct (PyStr.rstrip r) as [|c'' r'] eqn:Hr'.
    + destruct (PyStr.isspace c'); [discriminate|]. now rewrite IH.
    + now rewrite IH.
Qed.

Lemma lstrip_head s :
  PyStr.lstrip s = "" \/
  exists c t, PyStr.lstrip s = String c t /\ PyStr.isspace c = false.
Proof.
  induction s as [|c s IH]; simpl; [now left|].
  destruct (PyStr.isspace c) eqn:Hc; [exact IH|]. right. eauto.
Qed.

Lemma rstrip_keeps_head c t :
  PyStr.isspace c = false ->
  exists t', PyStr.rstrip (String c t) = String c t'.
Proof.
  intros Hc. cbn [PyStr.rstrip].
  destruct (PyStr.rstrip t); [rewrite Hc|]; eauto.
Qed.

Lemma strip_idempotent s : PyStr.strip (PyStr.strip s) = PyStr.strip s.
Proof.
  unfold PyStr.strip.
  destruct (lstrip_head s) as [->|(c & t & -> & Hc)]; [reflexivity|].
  destruct (rstrip_keeps_head c t Hc) as [t' Ht'].
  rewrite Ht'. cbn [PyStr.lstrip]. rewrite Hc, <- Ht'.
  apply rstrip_idempotent.
Qed.

Lemma reply_content_stripped resp s :
  reply_content resp = Ok s -> PyStr.strip s = s.
Proof.
  unfold reply_content. destruct (raw_content resp) as [c|e]; [|discriminate].
  destruct c; simpl; try discriminate.
  intros [= <-]. apply strip_idempotent.
Qed.

Lemma attempts_loop_bounded messages attempts last_exc tr :
  exists added,
    snd (attempts_loop fpow time_sleep st w messages attempts last_exc tr) = tr ++ added /\
    (chat_attempts added <= List.length attempts)%nat /\
    (List.length (sleeps added) <= chat_attempts added)%nat /\
    hosting_calls added = [] /\
    forall s,
      fst (attempts_loop fpow time_sleep st w messages attempts last_exc tr) = Ok (inl s) ->
      PyStr.strip s = s.
Proof.
  revert last_exc tr. induction attempts as [|a l IH]; intros last_exc tr.
  - exists []. simpl. rewrite app_nil_r. repeat split; auto. discriminate.
  - rewrite attempt_step.
    destruct (attempt_outcome w _) as [content|e] eqn:Hout.
    + exists [ECall (chat_request st messages)]. simpl.
      split; [reflexivity|]. split; [unfold chat_attempts; simpl; lia|].
      split; [rewrite chat_attempts_request; lia|]. split; [reflexivity|].
      intros s [= <-]. unfold attempt_outcome in Hout.
      destruct (openai_create w _) as [resp|]; [|discriminate].
      now apply reply_content_stripped with resp.
    + destruct (fpow (RETRY_BACKOFF st) a) as [wait|e'].
      2:{ exists [ECall (chat_request st messages)]. simpl.
          split; [reflexivity|]. split; [unfold chat_attempts; simpl; lia|].
          split; [rewrite chat_attempts_request; lia|]. split; [reflexivity|].
          discriminate. }
      destruct (time_sleep wait).
      2:{ eexists. simpl.
          split; [reflexivity|]. split; [unfold chat_attempts; simpl; lia|].
          split; [unfold chat_attempts; simpl; lia|]. split; [reflexivity|].
          discriminate. }
      destruct (IH (Some e) (tr ++ failed_attempts st messages [wait]))
        as (added & Htr & Hc & Hs & Hh & Hstrip).
      exists (failed_attempts st messages [wait] ++ added).
      rewrite Htr, app_assoc. repeat split.
      * rewrite chat_attempts_app, failed_attempts_chat. simpl. lia.
      * rewrite sleeps_app, length_app, chat_attempts_app,
          failed_attempts_sleeps, failed_attempts_chat. simpl. lia.
      * rewrite hosting_calls_app, Hh. reflexivity.
      * exact Hstrip.
Qed.

Lemma call_openai_chat_run messages tr :
  exists added,
    snd (call_openai_chat fpow time_sleep st w messages tr) = tr ++ added /\
    (chat_attempts added <= Z.to_nat (RETRY_ATTEMPTS st))%nat /\
    (List.length (sleeps added) <= chat_attempts added)%nat /\
    hosting_calls added = [] /\
    forall s,
      fst (call_openai_chat fpow time_sleep st w messages tr) = Ok (Some s) ->
      PyStr.strip s = s.
Proof.
  unfold call_openai_chat. destruct (negb _).
  - eexists. simpl. split; [reflexivity|]. split; [unfold chat_attempts; simpl; lia|].
    split; [simpl; lia|]. split; [reflexivity|discriminate].
  - destruct (attempts_loop_bounded messages
                (PyVal.range 1 (RETRY_ATTEMPTS st + 1)) None tr)
      as (added & Htr & Hc & Hs & Hh & Hstrip).
    rewrite range_length in Hc.
    destruct (attempts_loop fpow time_sleep st w messages _ None tr)
      as [[[s|last]|e] tr1] eqn:Hloop; simpl in Htr, Hstrip; subst tr1.
    + rewrite (bind_ok _ _ _ _ _ Hloop). exists added.
      split; [reflexivity|]. split; [lia|]. split; [exact Hs|].
      split; [exact Hh|]. intros s' [= <-]. now apply Hstrip.
    + rewrite (bind_ok _ _ _ _ _ Hloop). destruct last as [e|].
      * exists (added ++ [ELog ERROR "OpenAI calls failed after %d attempts: %s";
                          ETraceback e]).
        rewrite chat_attempts_app, sleeps_app, length_app, hosting_calls_app, Hh.
        split; [unfold bind, log, emit, ret; simpl; now rewrite <- !app_assoc|].
        unfold chat_attempts at 2 4. simpl.
        repeat split; try lia. discriminate.
      * exists (added ++ [ELog ERROR "OpenAI calls failed after %d attempts: %s"]).
        rewrite chat_attempts_app, sleeps_app, length_app, hosting_calls_app, Hh.
        split; [unfold bind, log, emit, raise; simpl; now rewrite <- !app_assoc|].
        unfold chat_attempts at 2 4. simpl.
        repeat split; try lia. discriminate.
    + rewrite (bind_raise _ _ _ _ _ Hloop). exists added.
      split; [reflexivity|]. split; [lia|]. split; [exact Hs|].
      split; [exact Hh|]. discriminate.
Qed.

(** X4: whatever the completion service does, [call_openai_chat] makes at
    most [RETRY_ATTEMPTS] completion calls, sleeps at most once per call,
    never calls the hosting service, and a text it returns has no leading
    or trailing whitespace. *)
Theorem call_openai_chat_bounded messages tr :
  exists added,
    snd (call_openai_chat fpow time_sleep st w messages tr) = tr ++ added /\
    (chat_attempts added <= Z.to_nat (RETRY_ATTEMPTS st))%nat /\
    (List.length (sleeps added) <= chat_attempts added)%nat /\
    hosting_calls added = [] /\
    forall s,
      fst (call_openai_chat fpow time_sleep st w messages tr) = Ok (Some s) ->
      PyStr.strip s = s.
Proof. apply call_openai_chat_run. Qed.

(** X25: the waits are not protected.  When attempts [1 .. k] fail, the
    waits after attempts [1 .. k-1] are computed and accepted, and the wait
    after attempt [k] is not (the power of line 92 raises, or [time.sleep]
    refuses the duration at line 94), [call_openai_chat] raises that
    exception after exactly [k] completion calls: it neither retries nor
    returns [None]. *)
Theorem refused_wait_ends_the_call messages tr (k : nat) waits e0 :
  env_set (OPENAI_API_KEY st) = true ->
  (1 <= k)%nat ->
  (Z.of_nat k <= RETRY_ATTEMPTS st)%Z ->
  chat_attempts tr = 0%nat ->
  Forall2 (backoff_wait fpow time_sleep st) (PyVal.range 1 (Z.of_nat k)) waits ->
  (forall h, (chat_attempts h <= k)%nat ->
             exists e, attempt_outcome w h = Raise e) ->
  (fpow (RETRY_BACKOFF st) (Z.of_nat k) = Raise e0 \/
   exists wait, fpow (RETRY_BACKOFF st) (Z.of_nat k) = Ok wait /\
                time_sleep wait = Raise e0) ->
  exists added,
    call_openai_chat fpow time_sleep st w messages tr = (Raise e0, tr ++ added) /\
    chat_attempts added = k /\
    sleeps added = waits.
Proof.
  intros Hkey Hk HkN Htr Hwaits Hfail Hrefused.
  assert (Hlen : List.length waits = (k - 1)%nat).
  { rewrite <- (Forall2_length Hwaits), range_length. lia. }
  destruct (attempts_loop_failures messages (PyVal.range 1 (Z.of_nat k)) waits
              (Z.of_nat k :: PyVal.range (Z.of_nat k + 1) (RETRY_ATTEMPTS st + 1))
              None tr Hwaits) as (last' & _ & _ & Hloop).
  { intros h Hh. apply Hfail. rewrite range_length in Hh. lia. }
  destruct (Hfail ((tr ++ failed_attempts st messages waits)
                      ++ [ECall (chat_request st messages)])) as [e He].
  { rewrite !chat_attempts_app, chat_attempts_request, failed_attempts_chat. lia. }
  rewrite attempt_step, He in Hloop.
  unfold call_openai_chat. rewrite Hkey; simpl.
  rewrite (range_app 1 (Z.of_nat k) (RETRY_ATTEMPTS st + 1)) by lia.
  rewrite (range_cons (Z.of_nat k)) by lia.
  destruct Hrefused as [Hpow|(wait & Hpow & Hsleep)]; rewrite Hpow in Hloop.
  - rewrite (bind_raise _ _ _ _ _ Hloop). eexists.
    split; [rewrite <- app_assoc; reflexivity|].
    rewrite chat_attempts_app, sleeps_app, chat_attempts_request,
      failed_attempts_chat, failed_attempts_sleeps. simpl.
    rewrite app_nil_r. split; [lia | reflexivity].
  - rewrite Hsleep in Hloop.
    rewrite (bind_raise _ _ _ _ _ Hloop). eexists.
    split; [rewrite <- app_assoc; reflexivity|].
    rewrite chat_attempts_app, sleeps_app,
      failed_attempts_chat, failed_attempts_sleeps. simpl.
    rewrite app_nil_r. unfold chat_attempts. simpl. split; [lia | reflexivity].
Qed.

(** ** The responder *)

(** Closes a goal [exists added, m tr = (r, tr ++ added) /\ ...] once the
    run has been computed. *)
Ltac trace_done :=
  eexists; split;
  [ rewrite <- ?app_assoc; simpl; first [reflexivity | now rewrite app_nil_r]
  | ].

Lemma safe_post_run repo number body tr :
  exists added,
    safe_post_comment_and_label st w repo number body tr = (Ok tt, tr ++ added) /\
    chat_attempts added = 0%nat /\
    (posts added = [] \/ comments added = [body]).
Proof.
  unfold safe_post_comment_and_label, try_except, bind, call, log, emit.
  destruct (negb (gh_present st)); simpl.
  { trace_done. split; [reflexivity | now left]. }
  destruct (gh_get_repo w _) as [[]|]; simpl;
    [| trace_done; split; [reflexivity | now left] ].
  destruct (gh_get_issue w _) as [[]|]; simpl;
    [| trace_done; split; [reflexivity | now left] ].
  destruct (gh_create_comment w _) as [[]|]; simpl;
    [| trace_done; split; [reflexivity | now right] ].
  destruct (gh_get_labels w _) as [labels|]; simpl;
    [| trace_done; split; [reflexivity | now right] ].
  destruct (existsb _ labels); simpl.
  - destruct (gh_add_to_labels w _) as [[]|]; simpl;
      trace_done; split; (reflexivity || now right).
  - destruct (gh_create_label w _) as [[]|]; simpl;
      [destruct (gh_add_to_labels w _) as [[]|]; simpl|];
      trace_done; split; (reflexivity || now right).
Qed.

(** X5: whatever the hosting service does, [safe_post_comment_and_label]
    returns normally; it makes no completion call, and it either sends no
    comment or label request at all or requests exactly one comment, with
    the body it was given. *)
Theorem safe_post_never_raises repo number body tr :
  exists added,
    safe_post_comment_and_label st w repo number body tr = (Ok tt, tr ++ added) /\
    chat_attempts added = 0%nat /\
    (posts added = [] \/ comments added = [body]).
Proof. apply safe_post_run. Qed.

(** X6: once the repository, the issue and the comment are accepted, the
    comment stays posted and the function returns normally whatever happens
    to the label requests. *)
Theorem comment_survives_label_failure repo number body tr :
  gh_present st = true ->
  (forall h, gh_get_repo w h = Ok tt) ->
  (forall h, gh_get_issue w h = Ok tt) ->
  (forall h, gh_create_comment w h = Ok tt) ->
  exists added,
    safe_post_comment_and_label st w repo number body tr = (Ok tt, tr ++ added) /\
    comments added = [body] /\
    exists rest,
      hosting_calls added
      = [ get_repo repo; get_issue repo number;
          create_comment repo number body; get_labels repo ] ++ rest.
Proof.
  intros Hgh Hrepo Hissue Hcomment.
  unfold safe_post_comment_and_label, try_except, bind, call, log, emit.
  rewrite Hgh; simpl. rewrite Hrepo; simpl. rewrite Hissue; simpl.
  rewrite Hcomment; simpl.
  destruct (gh_get_labels w _) as [labels|]; simpl;
    [| trace_done; split; [reflexivity | eexists; reflexivity] ].
  destruct (existsb _ labels); simpl.
  - destruct (gh_add_to_labels w _) as [[]|]; simpl;
      trace_done; split; (reflexivity || (eexists; reflexivity)).
  - destruct (gh_create_label w _) as [[]|]; simpl;
      [destruct (gh_add_to_labels w _) as [[]|]; simpl|];
      trace_done; split; (reflexivity || (eexists; reflexivity)).
Qed.

(** X7: when the hosting service refuses the comment, no label is listed,
    created or attached. *)
Theorem refused_comment_stops_labelling repo number body tr :
  (forall h, exists e, gh_create_comment w h = Raise e) ->
  exists added,
    safe_post_comment_and_label st w repo number body tr = (Ok tt, tr ++ added) /\
    label_requests added = [].
Proof.
  intros Hrefuse.
  unfold safe_post_comment_and_label, try_except, bind, call, log, emit.
  destruct (negb (gh_present st)); simpl; [trace_done; reflexivity|].
  destruct (gh_get_repo w _) as [[]|]; simpl; [|trace_done; reflexivity].
  destruct (gh_get_issue w _) as [[]|]; simpl; [|trace_done; reflexivity].
  match goal with
  | |- context [gh_create_comment w ?h] => destruct (Hrefuse h) as [e ->]
  end.
  simpl. trace_done. reflexivity.
Qed.

(** ** Reading the changed files *)

(** X8: [fetch_changed_files_for_pr] never raises and only reads: it
    returns the file names in listing order when the pull request and its
    files can be read, and the empty list otherwise. *)
Theorem fetch_changed_files_outcomes repo_obj pr_number tr :
  let h1 := tr ++ [ECall (get_pull repo_obj pr_number)] in
  let h2 := h1 ++ [ECall (get_files repo_obj pr_number)] in
  exists added,
    fetch_changed_files_for_pr w repo_obj pr_number tr
    = (Ok match gh_get_pull w h1 with
          | Raise _ => []
          | Ok _ =>
              match gh_get_files w h2 with
              | Ok files => map filename files
              | Raise _ => []
              end
          end,
       tr ++ added) /\
    posts added = [] /\ chat_attempts added = 0%nat.
Proof.
  intros h1 h2. subst h1 h2.
  unfold fetch_changed_files_for_pr, try_except, bind, call, log, emit, ret.
  destruct (gh_get_pull w _); simpl; [|trace_done; split; reflexivity].
  destruct (gh_get_files w _); simpl; trace_done; split; reflexivity.
Qed.

(** ** Extracting a snippet *)

(** X9: for a listed file with a patch, the snippet is made of the first
    [max_lines] lines of the patch, and the content of the file is not
    fetched. *)
Theorem snippet_prefers_patch repo_obj pr_number path (n : Z) tr pr files f p :
  let h1 := tr ++ [ECall (get_pull repo_obj pr_number)] in
  let h2 := h1 ++ [ECall (get_files repo_obj pr_number)] in
  gh_get_pull w h1 = Ok pr ->
  gh_get_files w h2 = Ok files ->
  find (fun f => filename f =? path) files = Some f ->
  patch_text f = Some p ->
  (0 <= n)%Z ->
  get_file_snippet_for_pr w repo_obj pr_number path (PInt n) tr
  = (Ok (PyStr.join PyStr.nl (firstn (Z.to_nat n) (PyStr.splitlines p))), h2).
Proof.
  intros h1 h2 Hpull Hfiles Hfind Hpatch Hn. subst h1 h2.
  unfold get_file_snippet_for_pr, try_except, bind, call.
  rewrite Hpull, Hfiles, Hfind, Hpatch.
  unfold lift, excerpt, PyVal.slice_to_val, PyVal.slice_to.
  destruct (Z.leb_spec 0 n); [reflexivity | lia].
Qed.

(** X10: for a listed file without a patch, the content is requested at
    the head commit of the pull request; the snippet is made of its first
    [max_lines] lines, or is empty when the content cannot be fetched. *)
Theorem snippet_falls_back_to_head_content repo_obj pr_number path (n : Z) tr
    pr files f :
  let h1 := tr ++ [ECall (get_pull repo_obj pr_number)] in
  let h2 := h1 ++ [ECall (get_files repo_obj pr_number)] in
  let h3 := h2 ++ [ECall (get_contents repo_obj path (head_sha pr))] in
  gh_get_pull w h1 = Ok pr ->
  gh_get_files w h2 = Ok files ->
  find (fun f => filename f =? path) files = Some f ->
  patch_text f = None ->
  (0 <= n)%Z ->
  get_file_snippet_for_pr w repo_obj pr_number path (PInt n) tr
  = match gh_get_contents w h3 with
    | Ok text =>
        (Ok (PyStr.join PyStr.nl (firstn (Z.to_nat n) (PyStr.splitlines text))), h3)
    | Raise _ =>
        (Ok "", h3 ++ [ELog DEBUG "Could not fetch raw content for %s at %s"])
    end.
Proof.
  intros h1 h2 h3 Hpull Hfiles Hfind Hpatch Hn. subst h1 h2 h3.
  unfold get_file_snippet_for_pr, try_except, bind, call.
  rewrite Hpull, Hfiles, Hfind, Hpatch.
  destruct (gh_get_contents w _) as [text|e]; [|reflexivity].
  unfold lift, excerpt, PyVal.slice_to_val, PyVal.slice_to.
  destruct (Z.leb_spec 0 n); [reflexivity | lia].
Qed.

(** X11: for a file that the listing does not contain, the snippet is
    empty and nothing else is requested. *)
Theorem snippet_of_unlisted_file repo_obj pr_number path max_lines tr pr files :
  let h1 := tr ++ [ECall (get_pull repo_obj pr_number)] in
  let h2 := h1 ++ [ECall (get_files repo_obj pr_number)] in
  gh_get_pull w h1 = Ok pr ->
  gh_get_files w h2 = Ok files ->
  ~ In path (map filename files) ->
  get_file_snippet_for_pr w repo_obj pr_number path max_lines tr = (Ok "", h2).
Proof.
  intros h1 h2 Hpull Hfiles Hnot. subst h1 h2.
  unfold get_file_snippet_for_pr, try_except, bind, call.
  rewrite Hpull, Hfiles.
  destruct (find _ files) as [f|] eqn:Hfind; [|reflexivity].
  exfalso. apply Hnot. apply find_some in Hfind as [Hin Heq].
  apply String.eqb_eq in Heq. subst path. now apply in_map.
Qed.

(** X12: [get_file_snippet_for_pr] never raises and only reads, whatever
    the hosting service does; with a line cap that is not an integer (a
    string, a list, a mapping) every snippet is empty. *)
Theorem snippet_never_raises repo_obj pr_number path max_lines tr :
  exists snippet added,
    get_file_snippet_for_pr w repo_obj pr_number path max_lines tr
    = (Ok snippet, tr ++ added) /\
    posts added = [] /\ chat_attempts added = 0%nat /\
    (not_slice_bound max_lines = true -> snippet = "").
Proof.
  assert (Hexc : forall text,
            not_slice_bound max_lines = true ->
            exists e, excerpt text max_lines = Raise e).
  { intros text Hbad. unfold excerpt.
    destruct max_lines; simpl in *; try discriminate; eauto. }
  unfold get_file_snippet_for_pr, try_except, bind, call, lift, log, emit, ret.
  destruct (gh_get_pull w _) as [pr|]; simpl;
    [| eexists; trace_done; repeat split ].
  destruct (gh_get_files w _) as [files|]; simpl;
    [| eexists; trace_done; repeat split ].
  destruct (find _ files) as [f|]; simpl;
    [| eexists; trace_done; repeat split ].
  destruct (patch_text f) as [p|]; simpl.
  - destruct (excerpt p max_lines) as [s|] eqn:Hs; simpl;
      eexists; trace_done; repeat split.
    intros Hbad. destruct (Hexc p Hbad) as [e He]. congruence.
  - destruct (gh_get_contents w _) as [text|]; simpl;
      [| eexists; trace_done; repeat split ].
    destruct (excerpt text max_lines) as [s|] eqn:Hs; simpl;
      eexists; trace_done; repeat split.
    intros Hbad. destruct (Hexc text Hbad) as [e He]. congruence.
Qed.

(** ** Handlers that stop early *)

(** X13: when the payload has no repository name (or an empty one) or the
    entity has no number, each handler logs an error and returns without
    any network call. *)
Theorem handlers_abort_without_target payload entity repository repo_full
    number cfg tr :
  PyVal.get payload "repository" (PDict []) = Ok (PDict repository) ->
  PyVal.get (PDict repository) "full_name" PNone = Ok repo_full ->
  PyVal.get (PDict entity) "number" PNone = Ok number ->
  PyVal.truthy repo_full = false \/ number = PNone ->
  (PyVal.get payload "pull_request" (PDict []) = Ok (PDict entity) ->
   handle_pull_request fpow time_sleep py_str str_format st w payload cfg tr
   = (Ok tt,
      tr ++ [ELog ERROR "PR payload missing repository or pr number; aborting."])) /\
  (PyVal.get payload "issue" (PDict []) = Ok (PDict entity) ->
   handle_issue fpow time_sleep py_str str_format st w payload cfg tr
   = (Ok tt,
      tr ++ [ELog ERROR "Issue payload missing repository or issue number; aborting."])).
Proof.
  intros Hrepo Hfull Hnumber Hmissing.
  assert (Hguard : negb (PyVal.truthy repo_full) || PyVal.is_none number = true).
  { destruct Hmissing as [->| ->]; [reflexivity | apply orb_true_r]. }
  split; intros Hentity.
  - unfold handle_pull_request.
    rewrite bind_ok with (a := PDict entity) (tr1 := tr)
      by (unfold lift; now rewrite Hentity).
    erewrite bind_ok by (unfold lift; simpl; reflexivity).
    erewrite bind_ok by (unfold lift; simpl; reflexivity).
    rewrite bind_ok with (a := PDict repository) (tr1 := tr)
      by (unfold lift; now rewrite Hrepo).
    rewrite bind_ok with (a := repo_full) (tr1 := tr)
      by (unfold lift; now rewrite Hfull).
    rewrite bind_ok with (a := number) (tr1 := tr)
      by (unfold lift; now rewrite Hnumber).
    now rewrite Hguard.
  - unfold handle_issue.
    rewrite bind_ok with (a := PDict entity) (tr1 := tr)
      by (unfold lift; now rewrite Hentity).
    erewrite bind_ok by (unfold lift; simpl; reflexivity).
    erewrite bind_ok by (unfold lift; simpl; reflexivity).
    rewrite bind_ok with (a := PDict repository) (tr1 := tr)
      by (unfold lift; now rewrite Hrepo).
    rewrite bind_ok with (a := repo_full) (tr1 := tr)
      by (unfold lift; now rewrite Hfull).
    rewrite bind_ok with (a := number) (tr1 := tr)
      by (unfold lift; now rewrite Hnumber).
    now rewrite Hguard.
Qed.

(** X14: an event that is not a container, or whose [pull_request] or
    [issue] entry is not a mapping (for instance [null]), ends in the
    handler of [main]: the exception is logged and the exit status is 1,
    without any network call. *)
Theorem ill_typed_event_exits_one cfg tr :
  let failed :=
    (Ok 1%Z, tr ++ [ELog (pyfloat := pyfloat) EXCEPTION
                      "Unhandled exception in assistant main loop."]) in
  (forall event,
     PyVal.contains "pull_request" event = Raise "TypeError" ->
     main fpow time_sleep py_str str_format st w event cfg tr = failed) /\
  (forall d v,
     PyVal.lookup "pull_request" d = Some v -> not_mapping v = true ->
     main fpow time_sleep py_str str_format st w (PDict d) cfg tr = failed) /\
  (forall d v,
     PyVal.lookup "pull_request" d = None ->
     PyVal.lookup "issue" d = Some v -> not_mapping v = true ->
     main fpow time_sleep py_str str_format st w (PDict d) cfg tr = failed).
Proof.
  intros failed. subst failed. split; [|split].
  - intros event Hin. unfold main, try_except, bind, lift. now rewrite Hin.
  - intros d v Hpr Hv.
    unfold main, try_except, bind at 1, lift. simpl.
    unfold PyVal.has_key. rewrite Hpr.
    unfold handle_pull_request, bind, lift. simpl. rewrite Hpr.
    now destruct v.
  - intros d v Hpr Hissue Hv.
    unfold main, try_except, bind at 1, lift. simpl.
    unfold PyVal.has_key. rewrite Hpr.
    unfold bind at 1. rewrite Hissue.
    unfold handle_issue, bind, lift. simpl. rewrite Hissue.
    now destruct v.
Qed.

Lemma lookup_without_key k k' d :
  k <> k' -> PyVal.lookup k (without_key k' d) = PyVal.lookup k d.
Proof.
  intros Hne. induction d as [|[k0 v] d IH]; [reflexivity|].
  unfold without_key in *. simpl.
  destruct (String.eqb_spec k0 k') as [->|Hk0]; simpl.
  - destruct (String.eqb_spec k' k) as [->|]; [congruence | exact IH].
  - now rewrite IH.
Qed.

(** X15: a payload with a [pull_request] key is handled as a pull request
    whatever else it carries: the run is the same as on the payload
    without its [issue] key. *)
Theorem pull_request_takes_precedence d cfg tr :
  PyVal.has_key "pull_request" d = true ->
  main fpow time_sleep py_str str_format st w (PDict d) cfg tr
  = main fpow time_sleep py_str str_format st w (PDict (without_key "issue" d)) cfg tr.
Proof.
  intros Hpr.
  assert (Hpr' : PyVal.has_key "pull_request" (without_key "issue" d) = true).
  { unfold PyVal.has_key in *. now rewrite lookup_without_key by discriminate. }
  unfold main, try_except, bind at 1 3, lift. simpl.
  rewrite Hpr, Hpr'.
  unfold handle_pull_request. cbn [PyVal.get].
  now rewrite !lookup_without_key by discriminate.
Qed.

(** ** Composing runs *)

Lemma traces_bind {A B} (R1 R2 R : list (@event pyfloat) -> Prop)
    (Q : A -> Prop) (Q2 : B -> Prop) (m : M A) (k : A -> M B) :
  traces R1 Q m ->
  (forall a, Q a -> traces R2 Q2 (k a)) ->
  (forall x y, R1 x -> R2 y -> R (x ++ y)) ->
  (forall x, R1 x -> R x) ->
  traces R Q2 (bind m k).
Proof.
  intros Hm Hk Happ Hstop tr. destruct (Hm tr) as (add1 & Htr & H1 & HQ).
  unfold bind. destruct (m tr) as [[a|e] tr1]; simpl in *; subst tr1.
  - destruct (Hk a (HQ a eq_refl) (tr ++ add1)) as (add2 & Htr2 & H2 & HQ2).
    exists (add1 ++ add2). rewrite Htr2, app_assoc. auto.
  - exists add1. repeat split; auto. discriminate.
Qed.

Lemma traces_try {A} (R1 R2 R : list (@event pyfloat) -> Prop) (Q : A -> Prop)
    (m : M A) (handler : exn -> M A) :
  traces R1 Q m ->
  (forall e, traces R2 Q (handler e)) ->
  (forall x y, R1 x -> R2 y -> R (x ++ y)) ->
  (forall x, R1 x -> R x) ->
  traces R Q (try_except m handler).
Proof.
  intros Hm Hh Happ Hstop tr. destruct (Hm tr) as (add1 & Htr & H1 & HQ).
  unfold try_except. destruct (m tr) as [[a|e] tr1]; simpl in *; subst tr1.
  - exists add1. auto.
  - destruct (Hh e (tr ++ add1)) as (add2 & Htr2 & H2 & HQ2).
    exists (add1 ++ add2). rewrite Htr2, app_assoc. auto.
Qed.

Lemma traces_weaken {A} (R R' : list (@event pyfloat) -> Prop) (Q Q' : A -> Prop)
    (m : M A) :
  traces R Q m -> (forall x, R x -> R' x) -> (forall a, Q a -> Q' a) ->
  traces R' Q' m.
Proof.
  intros Hm HR HQ tr. destruct (Hm tr) as (added & Htr & H1 & H2).
  exists added. auto.
Qed.

Lemma posts_app tr added : posts (tr ++ added) = posts tr ++ posts added.
Proof. apply filter_app. Qed.

Lemma posts_nil_comments added : posts added = [] -> comments added = [].
Proof.
  induction added as [|e l IH]; [reflexivity|].
  unfold posts in *. simpl.
  destruct e as [[]| | |]; simpl; auto; discriminate.
Qed.

Lemma hosting_calls_nil added :
  hosting_calls added = [] ->
  posts added = [] /\ forallb no_hosting added = true.
Proof.
  induction added as [|e l IH]; [auto|].
  unfold posts in *. simpl.
  destruct e as [[]| | |]; simpl; auto; discriminate.
Qed.

Lemma run_ok_after_quiet frame x y :
  quiet_run x -> run_ok st frame y -> run_ok st frame (x ++ y).
Proof.
  intros Hx [Hposts Hchat]. destruct (quiet_trace _ Hx) as (Hc & Hm & Hp).
  split.
  - destruct Hposts as [Hnone|(s & Hs & Hstrip & Hcomment)].
    + left. now rewrite posts_app, Hp, Hnone.
    + right. exists s. now rewrite comments_app, Hm, Hcomment.
  - rewrite chat_attempts_app, Hc. exact Hchat.
Qed.

Lemma run_ok_quiet frame x : quiet_run x -> run_ok st frame x.
Proof.
  intros Hx. destruct (quiet_trace _ Hx) as (Hc & Hm & Hp).
  split; [now left | lia].
Qed.

Lemma quiet_then {A B} frame (Q : A -> Prop) (Q2 : B -> Prop) (m : M A)
    (k : A -> M B) :
  emits_only quiet Q m ->
  (forall a, Q a -> traces (run_ok st frame) Q2 (k a)) ->
  traces (run_ok st frame) Q2 (bind m k).
Proof.
  intros Hm Hk.
  apply traces_bind with (R1 := quiet_run) (R2 := run_ok st frame) (Q := Q).
  - exact Hm.
  - exact Hk.
  - apply run_ok_after_quiet.
  - apply run_ok_quiet.
Qed.

Lemma quiet_log frame lvl fmt :
  traces (run_ok st frame) (fun _ : unit => True) (log lvl fmt).
Proof.
  apply traces_weaken with (R := quiet_run) (Q := fun _ => True); auto.
  - apply eo_emit; [reflexivity | exact I].
  - apply run_ok_quiet.
Qed.

(** The end of both handlers: nothing is posted without a suggestion. *)
Lemma respond_run frame (suggestion : option string) fmt repo number :
  (forall s, suggestion = Some s -> PyStr.strip s = s) ->
  traces
    (fun added => posts_at_most_one_reply frame added /\ chat_attempts added = 0%nat)
    (fun _ => True)
    match suggestion with
    | Some s =>
        if s =? "" then log INFO fmt
        else safe_post_comment_and_label st w repo number (frame s)
    | None => log INFO fmt
    end.
Proof.
  intros Hstrip tr.
  assert (Hlog : exists added,
             snd (log INFO fmt tr) = tr ++ added /\
             (posts_at_most_one_reply frame added /\ chat_attempts added = 0%nat) /\
             forall a, fst (log INFO fmt tr) = Ok a -> True).
  { exists [ELog INFO fmt]. repeat split. now left. }
  destruct suggestion as [s|]; [|exact Hlog].
  destruct (String.eqb_spec s "") as [->|Hne]; [exact Hlog|].
  destruct (safe_post_run repo number (frame s) tr) as (added & Hrun & Hc & Hp).
  exists added. rewrite Hrun. repeat split; auto.
  destruct Hp as [Hp|Hp]; [now left|].
  right. exists s. auto.
Qed.

Lemma suggestion_then_respond frame messages fmt repo number :
  traces (run_ok st frame) (fun _ => True)
    (bind (call_openai_chat fpow time_sleep st w messages)
       (fun suggestion =>
          match suggestion with
          | Some s =>
              if s =? "" then log INFO fmt
              else safe_post_comment_and_label st w repo number (frame s)
          | None => log INFO fmt
          end)).
Proof.
  apply traces_bind with
    (R1 := fun x => posts x = [] /\
                    (chat_attempts x <= Z.to_nat (RETRY_ATTEMPTS st))%nat)
    (R2 := fun y => posts_at_most_one_reply frame y /\ chat_attempts y = 0%nat)
    (Q := fun r => forall s, r = Some s -> PyStr.strip s = s).
  - intros tr.
    destruct (call_openai_chat_run messages tr) as (added & Htr & Hc & _ & Hh & Hs).
    exists added. repeat split; auto.
    + now apply hosting_calls_nil.
    + intros r Hr s ->. now apply Hs.
  - intros suggestion Hs. now apply respond_run.
  - intros x y [Hpx Hcx] [Hposts Hcy]. split.
    + destruct Hposts as [Hnone|(s & Hs & Hstrip & Hcomment)].
      * left. now rewrite posts_app, Hpx, Hnone.
      * right. exists s.
        now rewrite comments_app, (posts_nil_comments _ Hpx), Hcomment.
    + rewrite chat_attempts_app. lia.
  - intros x [Hpx Hcx]. split; [now left | exact Hcx].
Qed.

Lemma handle_issue_run payload cfg :
  traces (run_ok st issue_comment) (fun _ => True)
    (handle_issue fpow time_sleep py_str str_format st w payload cfg).
Proof.
  unfold handle_issue.
  repeat (apply quiet_then with (Q := fun _ => True);
          [apply eo_lift; intros; exact I | intros ? _]).
  destruct (_ || _); [apply quiet_log|].
  apply quiet_then with (Q := fun _ => True);
    [apply eo_emit; [reflexivity | exact I] | intros ? _].
  apply quiet_then with (Q := fun _ => True);
    [apply build_issue_prompt_quiet | intros messages _].
  apply suggestion_then_respond.
Qed.

Lemma handle_pull_request_run payload cfg :
  traces (run_ok st pr_comment) (fun _ => True)
    (handle_pull_request fpow time_sleep py_str str_format st w payload cfg).
Proof.
  unfold handle_pull_request.
  repeat (apply quiet_then with (Q := fun _ => True);
          [apply eo_lift; intros; exact I | intros ? _]).
  destruct (_ || _); [apply quiet_log|].
  apply quiet_then with (Q := fun _ => True);
    [apply eo_emit; [reflexivity | exact I] | intros ? _].
  apply quiet_then with (Q := fun _ => True); [ | intros changed_files _].
  { destruct (gh_present st); [|eo].
    apply eo_bind with (Q := fun _ => True); [eo | intros ? _].
    apply fetch_changed_files_quiet. }
  apply quiet_then with (Q := fun _ => True);
    [apply prepare_snippets_quiet | intros snippets _].
  apply quiet_then with (Q := fun _ => True);
    [apply build_pr_prompt_quiet | intros messages _].
  apply suggestion_then_respond.
Qed.

(** ** The reply that is posted *)

(** A content that the loop returns is the content of the response to its
    last request. *)
Lemma attempts_loop_reply messages attempts last_exc tr s tr' :
  attempts_loop fpow time_sleep st w messages attempts last_exc tr
  = (Ok (inl s), tr') ->
  exists before resp,
    tr' = tr ++ before ++ [ECall (chat_request st messages)] /\
    openai_create w tr' = Ok resp /\
    reply_content resp = Ok s.
Proof.
  revert last_exc tr. induction attempts as [|a l IH]; intros last_exc tr.
  - simpl. unfold ret. discriminate.
  - rewrite attempt_step.
    destruct (attempt_outcome w _) as [content|e] eqn:Hout.
    + intros [= <- <-]. unfold attempt_outcome in Hout.
      destruct (openai_create w _) as [resp|] eqn:Hresp; [|discriminate].
      exists [], resp. auto.
    + destruct (fpow (RETRY_BACKOFF st) a) as [wait|e']; [|discriminate].
      destruct (time_sleep wait); [|discriminate].
      intros Hloop. apply IH in Hloop as (before & resp & -> & Hresp & Hs).
      exists (failed_attempts st messages [wait] ++ before), resp.
      rewrite <- !app_assoc in *. auto.
Qed.

Lemma call_openai_chat_reply messages tr s tr' :
  call_openai_chat fpow time_sleep st w messages tr = (Ok (Some s), tr') ->
  exists before resp,
    tr' = tr ++ before ++ [ECall (chat_request st messages)] /\
    openai_create w tr' = Ok resp /\
    reply_content resp = Ok s.
Proof.
  unfold call_openai_chat. destruct (negb _).
  { unfold bind, log, emit, ret. simpl. discriminate. }
  destruct (attempts_loop fpow time_sleep st w messages
              (PyVal.range 1 (RETRY_ATTEMPTS st + 1)) None tr)
    as [[[s'|last]|e] tr1] eqn:Hloop.
  - rewrite (bind_ok _ _ _ _ _ Hloop). unfold ret. intros [= <- <-].
    now apply attempts_loop_reply with (attempts := PyVal.range 1 (RETRY_ATTEMPTS st + 1))
                                       (last_exc := None).
  - rewrite (bind_ok _ _ _ _ _ Hloop).
    destruct last; unfold bind, log, emit, ret, raise; simpl; discriminate.
  - rewrite (bind_raise _ _ _ _ _ Hloop). discriminate.
Qed.

Lemma posts_only_the_reply_after_quiet frame tr x y :
  quiet_run x ->
  posts_only_the_reply st w frame (tr ++ x) y ->
  posts_only_the_reply st w frame tr (x ++ y).
Proof.
  intros Hx Hy. destruct (quiet_trace _ Hx) as (Hc & Hm & Hp).
  destruct Hy as [Hnone|(s & before & after & messages & resp & -> & Hresp & Hy)].
  - left. now rewrite posts_app, Hp, Hnone.
  - right. exists s, (x ++ before), after, messages, resp.
    rewrite <- !app_assoc in *. split; [reflexivity|]. split; [exact Hresp|].
    destruct Hy as (Hs & Ha & Hne & Hstrip & Hcomment).
    repeat split; auto.
    rewrite comments_app, Hm. exact Hcomment.
Qed.

Lemma quiet_then_reply {A B} frame (Q : A -> Prop) (m : M A) (k : A -> M B) :
  emits_only quiet Q m ->
  (forall a, Q a -> extends (posts_only_the_reply st w frame) (k a)) ->
  extends (posts_only_the_reply st w frame) (bind m k).
Proof.
  intros Hm Hk tr. destruct (Hm tr) as (add1 & Htr & H1 & HQ).
  unfold bind. destruct (m tr) as [[a|e] tr1]; simpl in *; subst tr1.
  - destruct (Hk a (HQ a eq_refl) (tr ++ add1)) as (add2 & Htr2 & H2).
    exists (add1 ++ add2). rewrite Htr2, app_assoc. split; [reflexivity|].
    now apply posts_only_the_reply_after_quiet.
  - exists add1. split; [reflexivity|]. left.
    now destruct (quiet_trace _ H1) as (_ & _ & Hp).
Qed.

Lemma quiet_log_reply frame lvl fmt :
  extends (posts_only_the_reply st w frame) (log (pyfloat := pyfloat) lvl fmt).
Proof. intros tr. exists [ELog lvl fmt]. split; [reflexivity | now left]. Qed.

(** The end of both handlers: what is posted frames the reply that
    [call_openai_chat] returned. *)
Lemma suggestion_then_respond_reply frame messages fmt repo number :
  extends (posts_only_the_reply st w frame)
    (bind (call_openai_chat fpow time_sleep st w messages)
       (fun suggestion =>
          match suggestion with
          | Some s =>
              if s =? "" then log INFO fmt
              else safe_post_comment_and_label st w repo number (frame s)
          | None => log INFO fmt
          end)).
Proof.
  intros tr.
  destruct (call_openai_chat_run messages tr) as (add1 & Htr & _ & _ & Hh & Hstrip).
  destruct (hosting_calls_nil _ Hh) as [Hp1 _].
  destruct (call_openai_chat fpow time_sleep st w messages tr)
    as [[suggestion|e] tr1] eqn:Hcall; simpl in Htr, Hstrip; subst tr1.
  2:{ rewrite (bind_raise _ _ _ _ _ Hcall). exists add1.
      split; [reflexivity | now left]. }
  rewrite (bind_ok _ _ _ _ _ Hcall).
  assert (Hlog : exists added,
             snd (log INFO fmt (tr ++ add1)) = tr ++ added /\
             posts_only_the_reply st w frame tr added).
  { exists (add1 ++ [ELog INFO fmt]). unfold log, emit. simpl.
    rewrite app_assoc. split; [reflexivity|]. left.
    now rewrite posts_app, Hp1. }
  destruct suggestion as [s|]; [|exact Hlog].
  destruct (String.eqb_spec s "") as [->|Hne]; [exact Hlog|].
  destruct (call_openai_chat_reply _ _ _ _ Hcall) as (before & resp & Heq & Hresp & Hs).
  apply app_inv_head in Heq. subst add1.
  destruct (safe_post_run repo number (frame s)
              (tr ++ before ++ [ECall (chat_request st messages)]))
    as (add2 & Hrun & Hc & Hp).
  exists ((before ++ [ECall (chat_request st messages)]) ++ add2).
  rewrite Hrun, <- !app_assoc. split; [reflexivity|].
  destruct Hp as [Hp|Hp].
  - left. rewrite app_assoc, posts_app, Hp1, Hp. reflexivity.
  - right. exists s, before, add2, messages, resp.
    repeat split; auto.
    rewrite app_assoc, comments_app, (posts_nil_comments _ Hp1). exact Hp.
Qed.

Lemma handle_issue_reply payload cfg :
  extends (posts_only_the_reply st w issue_comment)
    (handle_issue fpow time_sleep py_str str_format st w payload cfg).
Proof.
  unfold handle_issue.
  repeat (apply quiet_then_reply with (Q := fun _ => True);
          [apply eo_lift; intros; exact I | intros ? _]).
  destruct (_ || _); [apply quiet_log_reply|].
  apply quiet_then_reply with (Q := fun _ => True);
    [apply eo_emit; [reflexivity | exact I] | intros ? _].
  apply quiet_then_reply with (Q := fun _ => True);
    [apply build_issue_prompt_quiet | intros messages _].
  apply suggestion_then_respond_reply.
Qed.

Lemma handle_pull_request_reply payload cfg :
  extends (posts_only_the_reply st w pr_comment)
    (handle_pull_request fpow time_sleep py_str str_format st w payload cfg).
Proof.
  unfold handle_pull_request.
  repeat (apply quiet_then_reply with (Q := fun _ => True);
          [apply eo_lift; intros; exact I | intros ? _]).
  destruct (_ || _); [apply quiet_log_reply|].
  apply quiet_then_reply with (Q := fun _ => True);
    [apply eo_emit; [reflexivity | exact I] | intros ? _].
  apply quiet_then_reply with (Q := fun _ => True); [ | intros changed_files _].
  { destruct (gh_present st); [|eo].
    apply eo_bind with (Q := fun _ => True); [eo | intros ? _].
    apply fetch_changed_files_quiet. }
  apply quiet_then_reply with (Q := fun _ => True);
    [apply prepare_snippets_quiet | intros snippets _].
  apply quiet_then_reply with (Q := fun _ => True);
    [apply build_pr_prompt_quiet | intros messages _].
  apply suggestion_then_respond_reply.
Qed.

(** X16: whatever the payload, the configuration and the remote services
    do, a handler posts at most one comment, and only a comment that
    frames, between the fixed prefix and the fixed disclaimer, the stripped
    content of the response that the completion service gave to the last
    completion request of this run; that content is not empty and has no
    whitespace around it.  The handler sends no comment or label request
    otherwise. *)
Theorem handlers_post_only_a_framed_reply payload cfg tr :
  (exists added,
     snd (handle_pull_request fpow time_sleep py_str str_format st w payload cfg tr)
     = tr ++ added /\
     posts_only_the_reply st w pr_comment tr added) /\
  (exists added,
     snd (handle_issue fpow time_sleep py_str str_format st w payload cfg tr)
     = tr ++ added /\
     posts_only_the_reply st w issue_comment tr added).
Proof.
  split.
  - apply handle_pull_request_reply.
  - apply handle_issue_reply.
Qed.

Lemma main_returns ev cfg tr :
  exists status,
    fst (main fpow time_sleep py_str str_format st w ev cfg tr) = Ok status.
Proof.
  unfold main, try_except.
  match goal with
  | |- context [match ?m tr with _ => _ end] => destruct (m tr) as [[status|e] tr1]
  end; simpl; eauto.
Qed.

(** X17: [main] never raises: it ends with status 0 or 1, after at most
    [RETRY_ATTEMPTS] completion calls and at most one comment, whatever
    the event, the configuration and the remote services do. *)
Theorem main_run_is_bounded ev cfg tr :
  exists status added,
    main fpow time_sleep py_str str_format st w ev cfg tr = (Ok status, tr ++ added) /\
    (status = 0%Z \/ status = 1%Z) /\
    (chat_attempts added <= Z.to_nat (RETRY_ATTEMPTS st))%nat /\
    (List.length (comments added) <= 1)%nat.
Proof.
  assert (Hweak : forall frame (x : list (@event pyfloat)),
             run_ok st frame x ->
             (chat_attempts x <= Z.to_nat (RETRY_ATTEMPTS st))%nat /\
             (List.length (comments x) <= 1)%nat).
  { intros frame x [[Hnone|(s & _ & _ & ->)] Hc]; split; auto.
    rewrite (posts_nil_comments _ Hnone). simpl. lia. }
  assert (Hmain :
    traces (fun x => (chat_attempts x <= Z.to_nat (RETRY_ATTEMPTS st))%nat /\
                     (List.length (comments x) <= 1)%nat)
      (fun status => status = 0%Z \/ status = 1%Z)
      (main fpow time_sleep py_str str_format st w ev cfg)).
  { unfold main.
    apply traces_try with
      (R1 := fun x => (chat_attempts x <= Z.to_nat (RETRY_ATTEMPTS st))%nat /\
                      (List.length (comments x) <= 1)%nat)
      (R2 := quiet_run).
    - apply traces_bind with (R1 := quiet_run)
        (R2 := fun x => (chat_attempts x <= Z.to_nat (RETRY_ATTEMPTS st))%nat /\
                        (List.length (comments x) <= 1)%nat)
        (Q := fun _ => True).
      + apply eo_lift. auto.
      + intros is_pr _. destruct is_pr.
        * apply traces_bind with (R1 := run_ok st pr_comment) (R2 := quiet_run)
            (Q := fun _ => True).
          -- apply handle_pull_request_run.
          -- intros ? _. apply eo_ret. now left.
          -- intros x y Hx Hy. destruct (quiet_trace _ Hy) as (Hc & Hm & _).
             rewrite chat_attempts_app, comments_app, Hc, Hm, app_nil_r, Nat.add_0_r.
             now apply Hweak with pr_comment.
          -- intros x. apply Hweak.
        * apply traces_bind with (R1 := quiet_run)
            (R2 := fun x => (chat_attempts x <= Z.to_nat (RETRY_ATTEMPTS st))%nat /\
                            (List.length (comments x) <= 1)%nat)
            (Q := fun _ => True).
          -- apply eo_lift. auto.
          -- intros is_issue _. destruct is_issue.
             ++ apply traces_bind with (R1 := run_ok st issue_comment)
                  (R2 := quiet_run) (Q := fun _ => True).
                ** apply handle_issue_run.
                ** intros ? _. apply eo_ret. now left.
                ** intros x y Hx Hy. destruct (quiet_trace _ Hy) as (Hc & Hm & _).
                   rewrite chat_attempts_app, comments_app, Hc, Hm, app_nil_r,
                     Nat.add_0_r.
                   now apply Hweak with issue_comment.
                ** intros x. apply Hweak.
             ++ apply traces_weaken with (R := quiet_run)
                  (Q := fun status => status = 0%Z \/ status = 1%Z); auto.
                ** apply eo_bind with (Q := fun _ => True);
                     [apply eo_emit; [reflexivity | exact I] | intros ? _].
                   apply eo_ret. now left.
                ** intros x Hx. destruct (quiet_trace _ Hx) as (Hc & Hm & _).
                   rewrite Hc, Hm. simpl. lia.
          -- intros x y Hx Hy. destruct (quiet_trace _ Hx) as (Hc & Hm & _).
             now rewrite chat_attempts_app, comments_app, Hc, Hm.
          -- intros x Hx. destruct (quiet_trace _ Hx) as (Hc & Hm & _).
             rewrite Hc, Hm. simpl. lia.
      + intros x y Hx Hy. destruct (quiet_trace _ Hx) as (Hc & Hm & _).
        now rewrite chat_attempts_app, comments_app, Hc, Hm.
      + intros x Hx. destruct (quiet_trace _ Hx) as (Hc & Hm & _).
        rewrite Hc, Hm. simpl. lia.
    - intros e. apply eo_bind with (Q := fun _ => True);
        [apply eo_emit; [reflexivity | exact I] | intros ? _].
      apply eo_ret. now right.
    - intros x y Hx Hy. destruct (quiet_trace _ Hy) as (Hc & Hm & _).
      now rewrite chat_attempts_app, comments_app, Hc, Hm, app_nil_r, Nat.add_0_r.
    - auto. }
  destruct (main_returns ev cfg tr) as [status Hstatus].
  destruct (Hmain tr) as (added & Htr & [Hc Hm] & Hcode).
  exists status, added. repeat split; auto.
  rewrite (surjective_pairing (main fpow time_sleep py_str str_format st w ev cfg tr)).
  now rewrite Hstatus, Htr.
Qed.

(** ** Without a hosting credential *)

Lemma silent_no_hosting (e : @event pyfloat) : silent e = true -> no_hosting e = true.
Proof. destruct e as [[]| | |]; simpl; auto. Qed.

Lemma call_openai_chat_no_hosting messages :
  emits_only no_hosting (fun _ => True) (call_openai_chat fpow time_sleep st w messages).
Proof.
  intros tr.
  destruct (call_openai_chat_run messages tr) as (added & Htr & _ & _ & Hh & _).
  exists added. repeat split; auto. now apply hosting_calls_nil.
Qed.

Lemma no_hosting_trace added :
  forallb (@no_hosting pyfloat) added = true -> hosting_calls added = [].
Proof.
  induction added as [|e l IH]; [reflexivity|]. simpl.
  rewrite andb_true_iff. intros [He Hl]. rewrite (IH Hl).
  destruct e as [[]| | |]; simpl in *; auto; discriminate.
Qed.

Section NoToken.

Hypothesis no_token : gh_present st = false.

Lemma respond_without_token (suggestion : option string) fmt repo number
    (frame : string -> string) :
  emits_only no_hosting (fun _ => True)
    match suggestion with
    | Some s =>
        if s =? "" then log INFO fmt
        else safe_post_comment_and_label st w repo number (frame s)
    | None => log INFO fmt
    end.
Proof.
  destruct suggestion as [s|]; [destruct (s =? "")|]; try (now eo).
  unfold safe_post_comment_and_label. rewrite no_token. simpl. eo.
Qed.

Lemma handle_issue_without_token payload cfg :
  emits_only no_hosting (fun _ => True)
    (handle_issue fpow time_sleep py_str str_format st w payload cfg).
Proof.
  unfold handle_issue.
  repeat (apply eo_bind with (Q := fun _ => True);
          [apply eo_lift; intros; exact I | intros ? _]).
  destruct (_ || _); [eo|].
  apply eo_bind with (Q := fun _ => True); [eo | intros ? _].
  apply eo_bind with (Q := fun _ => True); [ | intros messages _].
  { apply eo_mono with (p := silent); [apply silent_no_hosting|].
    eapply eo_post; [apply build_issue_prompt_spec | auto]. }
  apply eo_bind with (Q := fun _ => True);
    [apply call_openai_chat_no_hosting | intros suggestion _].
  apply respond_without_token.
Qed.

Lemma handle_pull_request_without_token payload cfg :
  emits_only no_hosting (fun _ => True)
    (handle_pull_request fpow time_sleep py_str str_format st w payload cfg).
Proof.
  unfold handle_pull_request. rewrite no_token.
  repeat (apply eo_bind with (Q := fun _ => True);
          [apply eo_lift; intros; exact I | intros ? _]).
  destruct (_ || _); [eo|].
  apply eo_bind with (Q := fun _ => True); [eo | intros ? _].
  apply eo_bind with (Q := fun changed_files => changed_files = []);
    [now apply eo_ret | intros changed_files ->].
  apply eo_bind with (Q := fun _ => True); [ | intros snippets _].
  { unfold prepare_snippets. simpl. eo. }
  apply eo_bind with (Q := fun _ => True); [ | intros messages _].
  { apply eo_mono with (p := silent); [apply silent_no_hosting|].
    eapply eo_post; [apply build_pr_prompt_spec | auto]. }
  apply eo_bind with (Q := fun _ => True);
    [apply call_openai_chat_no_hosting | intros suggestion _].
  apply respond_without_token.
Qed.

Lemma main_without_token ev cfg :
  emits_only no_hosting (fun _ => True)
    (main fpow time_sleep py_str str_format st w ev cfg).
Proof.
  unfold main. apply eo_try; [|intros; eo].
  apply eo_bind with (Q := fun _ => True);
    [apply eo_lift; intros; exact I | intros is_pr _].
  destruct is_pr.
  - apply eo_bind with (Q := fun _ => True);
      [apply handle_pull_request_without_token | intros; eo].
  - apply eo_bind with (Q := fun _ => True);
      [apply eo_lift; intros; exact I | intros is_issue _].
    destruct is_issue; [|eo].
    apply eo_bind with (Q := fun _ => True);
      [apply handle_issue_without_token | intros; eo].
Qed.

End NoToken.

(** X18: without a hosting credential the process never calls the hosting
    service, whatever the event and the configuration: no pull request is
    read and nothing is posted, even when the model returns a suggestion. *)
Theorem without_token_no_hosting_call ev cfg tr :
  gh_present st = false ->
  exists added,
    snd (main fpow time_sleep py_str str_format st w ev cfg tr) = tr ++ added /\
    hosting_calls added = [].
Proof.
  intros Hgh.
  destruct (main_without_token Hgh ev cfg tr) as (added & Htr & Hp & _).
  exists added. split; [exact Htr | now apply no_hosting_trace].
Qed.

(** ** Configuration that cannot be used *)

(** X19: a configuration file that is missing, cannot be loaded or loads
    to an empty document gives the empty configuration: the module body
    only logs and [main] runs with the defaults. *)
Theorem unusable_config_means_defaults s tr :
  env_set (EVENT_PATH s) = true ->
  event_path_exists s = true ->
  cfg_exists s = false \/
  (exists e, cfg_yaml s = Raise e) \/
  (exists v, cfg_yaml s = Ok v /\ PyVal.truthy v = false) ->
  exists logs,
    script fpow time_sleep py_str str_format st w s tr
    = main fpow time_sleep py_str str_format st w
        (match event_json s with Ok v => v | Raise _ => PDict [] end)
        (PDict []) (tr ++ logs) /\
    network_calls logs = [].
Proof.
  intros Hpath Hexists Hcfg. unfold script. rewrite Hpath, Hexists. simpl.
  set (ev := match event_json s with Ok v => v | Raise _ => PDict [] end).
  assert (Hev : exists logs,
            try_except (lift (event_json s))
              (fun _ => bind (log EXCEPTION "Failed to parse GITHUB_EVENT_PATH JSON")
                          (fun _ => ret (PDict []))) tr = (Ok ev, tr ++ logs) /\
            network_calls logs = []).
  { unfold try_except, lift, bind, log, emit, ret, ev.
    destruct (event_json s); simpl.
    - exists []. now rewrite app_nil_r.
    - eexists. split; reflexivity. }
  destruct Hev as (logs1 & Hev & Hnet1).
  rewrite (bind_ok _ _ _ _ _ Hev).
  assert (Hload : exists logs,
            load_config (pyfloat := pyfloat) s (tr ++ logs1)
            = (Ok (PDict []), (tr ++ logs1) ++ logs) /\
            network_calls logs = []).
  { unfold load_config, try_except, bind, lift, log, emit, ret.
    destruct Hcfg as [->|[[e He]|(v & Hv & Hfalsy)]].
    - eexists. split; reflexivity.
    - destruct (cfg_exists s); rewrite ?He; simpl; eexists; split; reflexivity.
    - destruct (cfg_exists s); rewrite ?Hv; simpl; rewrite ?Hfalsy.
      + exists []. now rewrite app_nil_r.
      + eexists. split; reflexivity. }
  destruct Hload as (logs2 & Hload & Hnet2).
  rewrite (bind_ok _ _ _ _ _ Hload).
  destruct (negb (env_set (OPENAI_API_KEY st))).
  - eexists. split.
    + unfold bind at 1, log, emit. rewrite <- !app_assoc. reflexivity.
    + unfold network_calls in *. now rewrite !filter_app, Hnet1, Hnet2.
  - eexists. split.
    + unfold bind at 1, ret. rewrite <- !app_assoc. reflexivity.
    + unfold network_calls in *. now rewrite !filter_app, Hnet1, Hnet2.
Qed.

(** X20: a configuration that is not a mapping (a list or a string loaded
    from the file) is fatal for an issue event: the handler raises when it
    reads the configuration, before any network call, and the exit status
    is 1. *)
Theorem non_mapping_config_is_fatal d issue repository repo_full number cfg tr :
  PyVal.lookup "pull_request" d = None ->
  PyVal.lookup "issue" d = Some (PDict issue) ->
  PyVal.lookup "number" issue = Some number ->
  PyVal.is_none number = false ->
  PyVal.lookup "repository" d = Some (PDict repository) ->
  PyVal.lookup "full_name" repository = Some repo_full ->
  PyVal.truthy repo_full = true ->
  not_mapping cfg = true ->
  main fpow time_sleep py_str str_format st w (PDict d) cfg tr
  = (Ok 1%Z,
     tr ++ [ ELog INFO "Handling issue %s#%s";
             ELog EXCEPTION "Unhandled exception in assistant main loop." ]).
Proof.
  intros Hpr Hissue Hnumber Hnone Hrepo Hfull Htruthy Hcfg.
  assert (Hhandler :
    handle_issue fpow time_sleep py_str str_format st w (PDict d) cfg tr
    = (Raise "AttributeError", tr ++ [ELog INFO "Handling issue %s#%s"])).
  { unfold handle_issue.
    rewrite bind_ok with (a := PDict issue) (tr1 := tr)
      by (unfold lift; simpl; now rewrite Hissue).
    erewrite bind_ok by (unfold lift; simpl; reflexivity).
    erewrite bind_ok by (unfold lift; simpl; reflexivity).
    rewrite bind_ok with (a := PDict repository) (tr1 := tr)
      by (unfold lift; simpl; now rewrite Hrepo).
    rewrite bind_ok with (a := repo_full) (tr1 := tr)
      by (unfold lift; simpl; now rewrite Hfull).
    rewrite bind_ok with (a := number) (tr1 := tr)
      by (unfold lift; simpl; now rewrite Hnumber).
    rewrite Htruthy, Hnone. simpl.
    rewrite bind_ok with (a := tt) (tr1 := tr ++ [ELog INFO "Handling issue %s#%s"])
      by reflexivity.
    apply bind_raise. unfold build_issue_prompt. apply bind_raise.
    destruct cfg; try discriminate; reflexivity. }
  unfold main, try_except.
  rewrite bind_ok with (a := false) (tr1 := tr)
    by (unfold lift; simpl; unfold PyVal.has_key; now rewrite Hpr).
  rewrite bind_ok with (a := true) (tr1 := tr)
    by (unfold lift; simpl; unfold PyVal.has_key; now rewrite Hissue).
  rewrite (bind_raise _ _ _ _ _ Hhandler).
  unfold bind, log, emit, ret. simpl. now rewrite <- app_assoc.
Qed.

(** ** The shape of the prompts *)

(** X21: for a configuration mapping, [build_pr_prompt] returns three
    messages with the roles system, user, user and [build_issue_prompt]
    two messages with the roles system, user; the system content is the
    configured [system_prompt] when there is one and the default of the
    builder otherwise. *)
Theorem prompt_structure title body changed_files snippets repo_full number d tr :
  (forall msgs tr',
     build_pr_prompt py_str str_format title body changed_files snippets
       repo_full number (PDict d) tr = (Ok msgs, tr') ->
     map role msgs = ["system"; "user"; "user"]%string /\
     option_map content (hd_error msgs)
     = Some match PyVal.lookup "system_prompt" d with
            | Some v => v
            | None => PStr "You are a cautious, security-minded coding assistant. Prioritize human review and be concise."
            end) /\
  (forall msgs tr',
     build_issue_prompt py_str str_format title body repo_full number
       (PDict d) tr = (Ok msgs, tr') ->
     map role msgs = ["system"; "user"]%string /\
     option_map content (hd_error msgs)
     = Some match PyVal.lookup "system_prompt" d with
            | Some v => v
            | None => PStr "You are a careful triage assistant. Request reproduction steps and emphasize security when relevant."
            end).
Proof.
  split; intros msgs tr'.
  - unfold build_pr_prompt, bind, lift, try_except, ret, log, emit. simpl.
    destruct (PyVal.truthy _); [destruct (format_template _ _ _)|]; simpl;
      destruct (PyVal.iter _); intros [= <- _]; split; reflexivity.
  - unfold build_issue_prompt, bind, lift, try_except, ret, log, emit. simpl.
    destruct (PyVal.truthy _); [destruct (format_template _ _ _)|]; simpl;
      intros [= <- _]; split; reflexivity.
Qed.

(** X22: a [sensitive_paths] entry that cannot be iterated (for instance
    [null] or a number) makes [build_pr_prompt] raise at line 187; the
    template fallback does not cover it. *)
Theorem non_iterable_sensitive_paths_raise title body changed_files snippets
    repo_full number d v e tr :
  PyVal.lookup "sensitive_paths" d = Some v ->
  PyVal.iter v = Raise e ->
  fst (build_pr_prompt py_str str_format title body changed_files snippets
         repo_full number (PDict d) tr) = Raise e.
Proof.
  intros Hv Hiter.
  unfold build_pr_prompt, bind, lift, try_except, ret, log, emit. simpl.
  rewrite Hv.
  destruct (PyVal.truthy _); [destruct (format_template _ _ _)|]; simpl;
    now rewrite Hiter.
Qed.

(** ** The snippet mapping in general *)






(** ** A pull request whose files cannot be read *)

Lemma build_pr_prompt_runs title body changed_files snippets repo_full number
    d v paths tr :
  PyVal.get (PDict d) "sensitive_paths" (PList []) = Ok v ->
  PyVal.iter v = Ok paths ->
  exists msgs logs,
    build_pr_prompt py_str str_format title body changed_files snippets
      repo_full number (PDict d) tr
    = (Ok msgs, tr ++ logs) /\
    forallb silent logs = true.
Proof.
  intros Hv Hiter.
  destruct (build_pr_prompt_returns title body changed_files snippets repo_full
              number d v paths tr Hv Hiter) as (msgs & tr' & Hrun).
  destruct (build_pr_prompt_spec title body changed_files snippets repo_full
              number (PDict d) tr) as (logs & Htr & Hsilent & _).
  rewrite Hrun in Htr. simpl in Htr. subst tr'. eauto.
Qed.

Lemma fetch_unreadable_pull repo_obj pr_number tr :
  (forall h, exists e, gh_get_pull w h = Raise e) ->
  fetch_changed_files_for_pr w repo_obj pr_number tr
  = (Ok [],
     tr ++ [ ECall (get_pull repo_obj pr_number);
             ELog EXCEPTION "Failed to fetch changed files for PR %s" ]).
Proof.
  intros Hpull. unfold fetch_changed_files_for_pr, try_except, bind, call.
  destruct (Hpull (tr ++ [ECall (get_pull repo_obj pr_number)])) as [e ->].
  unfold log, emit, ret. simpl. now rewrite <- app_assoc.
Qed.

(** X24: on a pull request event with both credentials set, when the pull
    request cannot be read the handler goes on without file list and
    snippets: the model is still asked, and its reply, when it is not
    blank, is posted between the prefix and the disclaimer of the pull
    request path and labelled. *)
Theorem suggestion_survives_unreadable_pull d pr repository repo_full number
    cfg v paths resp r labels tr :
  PyVal.lookup "pull_request" d = Some (PDict pr) ->
  PyVal.lookup "number" pr = Some number ->
  PyVal.is_none number = false ->
  PyVal.lookup "repository" d = Some (PDict repository) ->
  PyVal.lookup "full_name" repository = Some repo_full ->
  PyVal.truthy repo_full = true ->
  PyVal.get (PDict cfg) "sensitive_paths" (PList []) = Ok v ->
  PyVal.iter v = Ok paths ->
  env_set (OPENAI_API_KEY st) = true ->
  (1 <= RETRY_ATTEMPTS st)%Z ->
  gh_present st = true ->
  (forall h, exists e, gh_get_pull w h = Raise e) ->
  (forall h, openai_create w h = Ok resp) ->
  raw_content resp = Ok (PStr r) ->
  PyStr.strip r <> "" ->
  hosting_accepts w labels ->
  exists added,
    handle_pull_request fpow time_sleep py_str str_format st w (PDict d) (PDict cfg) tr
    = (Ok tt, tr ++ added) /\
    chat_attempts added = 1%nat /\
    comments added = [pr_comment (PyStr.strip r)] /\
    hosting_calls added
    = [ get_repo repo_full; get_pull repo_full number;
        get_repo repo_full; get_issue repo_full number;
        create_comment repo_full number (pr_comment (PyStr.strip r));
        get_labels repo_full ]
      ++ label_calls st repo_full number labels.
Proof.
  intros Hpr Hnumber Hnone Hrepo Hfull Htruthy Hv Hiter Hkey Hn Hgh Hpull
    Hresp Hraw Hstrip Hhost.
  unfold handle_pull_request.
  rewrite bind_ok with (a := PDict pr) (tr1 := tr)
    by (unfold lift; simpl; now rewrite Hpr).
  erewrite bind_ok by (unfold lift; simpl; reflexivity).
  erewrite bind_ok by (unfold lift; simpl; reflexivity).
  rewrite bind_ok with (a := PDict repository) (tr1 := tr)
    by (unfold lift; simpl; now rewrite Hrepo).
  rewrite bind_ok with (a := repo_full) (tr1 := tr)
    by (unfold lift; simpl; now rewrite Hfull).
  rewrite bind_ok with (a := number) (tr1 := tr)
    by (unfold lift; simpl; now rewrite Hnumber).
  rewrite Htruthy, Hnone, Hgh. simpl.
  set (tr1 := tr ++ [ELog INFO "Handling PR %s#%s"]).
  rewrite bind_ok with (a := tt) (tr1 := tr1) by reflexivity.
  set (tr2 := tr1 ++ [ ECall (get_repo repo_full);
                       ECall (get_pull repo_full number);
                       ELog EXCEPTION "Failed to fetch changed files for PR %s" ]).
  rewrite bind_ok with (a := @nil string) (tr1 := tr2).
  2:{ rewrite bind_ok with (a := tt) (tr1 := tr1 ++ [ECall (get_repo repo_full)]).
      - rewrite fetch_unreadable_pull by exact Hpull.
        unfold tr2. now rewrite <- app_assoc.
      - unfold call. destruct Hhost as (Hr & _). now rewrite Hr. }
  rewrite bind_ok with (a := @nil (string * string)) (tr1 := tr2)
    by reflexivity.
  match goal with
  | |- context [build_pr_prompt _ _ ?t ?b _ _ _ _ _] =>
      destruct (build_pr_prompt_runs t b [] [] repo_full number cfg v paths tr2
                  Hv Hiter)
        as (msgs & logs & Hbuild & Hsilent)
  end.
  rewrite bind_ok with (1 := Hbuild).
  rewrite bind_ok with (a := Some (PyStr.strip r))
    (tr1 := (tr2 ++ logs) ++ [ECall (chat_request st msgs)]).
  2:{ apply first_attempt_succeeds; auto.
      unfold attempt_outcome, reply_content. now rewrite Hresp, Hraw. }
  apply String.eqb_neq in Hstrip. rewrite Hstrip.
  rewrite safe_post_succeeds with (labels := labels) by assumption.
  destruct (silent_trace _ Hsilent) as (Hc & Hh & _).
  assert (Hlogs : comments logs = []).
  { clear -Hsilent. induction logs as [|e l IH]; simpl in *; [reflexivity|].
    apply andb_true_iff in Hsilent as [He Hl].
    rewrite IH by exact Hl. now destruct e. }
  assert (Hcalls :
    forallb (fun q => negb (is_chat (ECall q)))
      ([ get_repo repo_full; get_issue repo_full number;
         create_comment repo_full number (pr_comment (PyStr.strip r));
         get_labels repo_full ] ++ label_calls st repo_full number labels) = true).
  { unfold label_calls. now destruct (existsb _ labels). }
  unfold tr2, tr1. eexists. split; [|split; [|split]].
  - rewrite <- !app_assoc. reflexivity.
  - rewrite !chat_attempts_app, Hc, chat_attempts_request.
    rewrite chat_attempts_map by exact Hcalls. reflexivity.
  - rewrite !comments_app, Hlogs. simpl.
    unfold label_calls. now destruct (existsb _ labels).
  - rewrite !hosting_calls_app, Hh.
    rewrite hosting_calls_map by exact Hcalls. reflexivity.
Qed.

End AssistantProperties.

(** * The properties on concrete runs

    The runs below use the runtime and the worlds of [Example], with the
    default settings of the script. *)

Section Runs.

Local Open Scope list_scope.

Import Example.

(** C1 on the defaults: two failures, then a reply; the sleeps are 2s and
    4s and the reply comes back stripped. *)
Lemma retry_succeeds_on_last_attempt_witness :
  exists added,
    call_openai_chat Example.pow Example.nap both
      (Example.world (Example.fails_first 2 " ok ") [] []) [] []
    = (Ok (Some "ok"), added) /\
    chat_attempts added = 3%nat /\
    sleeps added = [2%Q; 4%Q] /\
    after_last_chat added = [].
Proof.
  destruct (retry_succeeds_on_last_attempt Example.pow Example.nap both
              (Example.world (Example.fails_first 2 " ok ") [] []) [] [] "ok"
              [2%Q; 4%Q])
    as (added & Hrun & _ & Hn & Hs & Hlast).
  - reflexivity.
  - simpl. lia.
  - reflexivity.
  - repeat (constructor; [split; reflexivity|]). constructor.
  - intros h Hh. unfold attempt_outcome, Example.fails_first. simpl in *.
    destruct (Nat.leb_spec (chat_attempts h) 2); [eauto | lia].
  - intros h Hh. unfold attempt_outcome, Example.fails_first. simpl in *.
    rewrite Hh. reflexivity.
  - exists added. repeat split; assumption.
Defined.

(** C1 does not hold of the code as stated.  On the defaults, two failures
    and then a reply are separated by sleeps of 2s and 4s: no sleep of 8s
    happens.  With [OPENAI_RETRY_BACKOFF=-2] the first failure is followed
    by [time.sleep(-2.0)], whose [ValueError] leaves [call_openai_chat]
    after one attempt: the reply of the last attempt is never returned. *)
Lemma retry_schedule_counterexample :
  let completion := Example.world (Example.fails_first 2 " ok ") [] [] in
  let run := call_openai_chat Example.pow Example.nap both completion [] [] in
  let run' :=
    call_openai_chat Example.pow Example.nap negative_backoff completion [] [] in
  (fst run = Ok (Some "ok") /\
   sleeps (snd run) = [2%Q; 4%Q] /\
   sleeps (snd run) <> [2%Q; 4%Q; 8%Q]) /\
  (fst run' = Raise "ValueError" /\
   fst run' <> Ok (Some "ok") /\
   chat_attempts (snd run') = 1%nat /\
   sleeps (snd run') = []).
Proof.
  vm_compute. repeat split; discriminate.
Qed.

(** C4 on the defaults: three failed attempts are followed by three sleeps,
    the last of them, 8s long, after the final attempt. *)
Theorem exhausted_retries_sleep_after_last_attempt :
  let run := call_openai_chat Example.pow Example.nap both
               (Example.world Example.always_fails [] []) [] [] in
  fst run = Ok None /\
  chat_attempts (snd run) = 3%nat /\
  sleeps (snd run) = [2%Q; 4%Q; 8%Q] /\
  sleeps (after_last_chat (snd run)) = [8%Q].
Proof. vm_compute. repeat split. Qed.

(** C3 on an issue event and on a pull request event without a model
    credential. *)
Lemma no_credential_no_call_no_comment_witness :
  env_set (OPENAI_API_KEY no_key) = false /\
  (exists added,
     snd (handle_pull_request Example.pow Example.nap Example.show Example.format_fields
            no_key (Example.world Example.always_fails [] Example.ten_files)
            Example.pr_event (PDict []) [])
     = [] ++ added /\
     chat_attempts added = 0%nat /\ comments added = []) /\
  (exists added,
     snd (handle_issue Example.pow Example.nap Example.show Example.format_fields
            no_key (Example.world Example.always_fails [] Example.ten_files)
            Example.issue_event (PDict []) [])
     = [] ++ added /\
     chat_attempts added = 0%nat /\ comments added = []).
Proof.
  split; [reflexivity|].
  destruct (no_credential_no_call_no_comment Example.pow Example.nap Example.show
              Example.format_fields no_key
              (Example.world Example.always_fails [] Example.ten_files))
    as (_ & Hpr & Hissue & _).
  - reflexivity.
  - split; [apply Hpr | apply Hissue].
Defined.

(** C5 on a pull request prompt and an issue prompt built from the default
    configuration. *)
Lemma prompts_are_well_formed_witness :
  (exists msgs,
     fst (build_pr_prompt Example.show Example.format_fields
            (PStr "Add cache") (PStr "") ["a.py"] [("a.py", "+x")]
            (PStr "acme/widget") (PInt 7) (PDict []) (@nil (@event Q)))
     = Ok msgs /\ well_formed msgs = true) /\
  (exists msgs,
     fst (build_issue_prompt Example.show Example.format_fields
            (PStr "Crash on startup") (PStr "")
            (PStr "acme/widget") (PInt 42) (PDict []) (@nil (@event Q)))
     = Ok msgs /\ well_formed msgs = true).
Proof.
  split.
  - eexists. split; [reflexivity|].
    apply (proj1 (prompts_are_well_formed (pyfloat := Q) Example.show
                    Example.format_fields (PStr "Add cache") (PStr "")
                    ["a.py"] [("a.py", "+x")] (PStr "acme/widget") (PInt 7) [])
             (PDict []) _ []).
    reflexivity.
  - eexists. split; [reflexivity|].
    apply (proj1 (proj2 (prompts_are_well_formed (pyfloat := Q) Example.show
                    Example.format_fields (PStr "Crash on startup") (PStr "")
                    [] [] (PStr "acme/widget") (PInt 42) []))
             (PDict []) _ []).
    reflexivity.
Defined.

(** C6 on a template that names a field that is not supplied: the user
    content is the text of line 181, which lacks the task sentence of the
    content used when no template is configured. *)
Theorem pr_format_failure_is_not_the_default :
  let build cfg :=
    fst (build_pr_prompt Example.show Example.format_fields
           (PStr "Add cache") (PStr "Speeds up lookups") ["cache.py"] []
           (PStr "acme/widget") (PInt 7) cfg (@nil (@event Q))) in
  let failure :=
    pr_format_failure_content Example.show (PStr "Add cache")
      (PStr "Speeds up lookups") "- cache.py" in
  let default :=
    pr_default_content Example.show (PStr "Add cache")
      (PStr "Speeds up lookups") "- cache.py" in
  Example.format_fields "Review {title} for {reviewer}"
    [ ("title", PStr "Add cache"); ("body", PStr "Speeds up lookups");
      ("changed_files_list", PStr "- cache.py");
      ("repo_full", PStr "acme/widget"); ("pr_number", PInt 7) ]
  = Raise "KeyError" /\
  (exists msgs,
     build (PDict [("pr_prompt", PStr "Review {title} for {reviewer}")]) = Ok msgs /\
     last_content msgs = Some (PStr failure)) /\
  (exists msgs,
     build (PDict []) = Ok msgs /\ last_content msgs = Some (PStr default)) /\
  failure <> default.
Proof.
  repeat split.
  - eexists. split; reflexivity.
  - eexists. split; reflexivity.
  - apply pr_fallbacks_differ.
Qed.


(** C8 on a push event. *)
Lemma unrecognised_event_is_noop_witness :
  main Example.pow Example.nap Example.show Example.format_fields both
    (Example.world Example.always_fails [] [])
    (PDict [("ref", PStr "refs/heads/main")]) (PDict []) []
  = (Ok 0%Z,
     [ELog INFO "Event is not a pull_request or issue; nothing to do."]).
Proof.
  apply (proj1 (unrecognised_event_is_noop Example.pow Example.nap Example.show
                  Example.format_fields both
                  (Example.world Example.always_fails [] [])
                  [("ref", PStr "refs/heads/main")] eq_refl eq_refl)).
Defined.

(** C2 does not hold of the code: with an event file that is not JSON the
    process exits with status 0. *)
Lemma unparsable_event_counterexample :
  let run := script Example.pow Example.nap Example.show Example.format_fields both
               (Example.world Example.always_fails [] []) unparsable [] in
  fst run = Ok 0%Z /\
  ~ (exists status, fst run = Ok status /\ status <> 0%Z).
Proof.
  split; [reflexivity|].
  intros (status & Hrun & Hne). vm_compute in Hrun. congruence.
Qed.

Lemma unparsable_event_exits_zero_witness :
  exists added,
    script Example.pow Example.nap Example.show Example.format_fields both
      (Example.world Example.always_fails [] []) unparsable []
    = (Ok 0%Z, [] ++ added) /\
    In (ELog EXCEPTION "Failed to parse GITHUB_EVENT_PATH JSON") added /\
    network_calls added = [].
Proof.
  apply (unparsable_event_exits_zero Example.pow Example.nap Example.show
           Example.format_fields both
           (Example.world Example.always_fails [] []) unparsable
           "JSONDecodeError" []); reflexivity.
Defined.



(** C10 on a reply made of spaces and a line break. *)
Lemma blank_reply_is_no_suggestion_witness :
  let blank := ("   " ++ PyStr.nl)%string in
  let w := Example.world (fun _ => Ok (Example.chat_response blank)) [] [] in
  call_openai_chat Example.pow Example.nap both w [] []
  = (Ok (Some ""), [ECall (chat_request both [])]) /\
  (exists added,
     snd (handle_pull_request Example.pow Example.nap Example.show Example.format_fields
            both w Example.pr_event (PDict []) []) = [] ++ added /\
     posts added = []) /\
  (exists added,
     snd (handle_issue Example.pow Example.nap Example.show Example.format_fields
            both w Example.issue_event (PDict []) []) = [] ++ added /\
     posts added = []).
Proof.
  intros blank w.
  destruct (blank_reply_is_no_suggestion Example.pow Example.nap Example.show
              Example.format_fields both w)
    as (Hcall & Hpr & Hissue).
  - reflexivity.
  - simpl. lia.
  - intros h. exists (Example.chat_response blank), blank. repeat split.
  - split; [apply (Hcall [] []) | split; [apply Hpr | apply Hissue]].
Defined.

(** * The further properties on concrete runs *)

(** X1 on the defaults: one failure, then a reply; one sleep of 2s and no
    third call. *)
Lemma retry_stops_at_first_success_witness :
  exists added,
    call_openai_chat Example.pow Example.nap both
      (Example.world (Example.fails_first 1 " ok ") [] []) [] []
    = (Ok (Some "ok"), added) /\
    chat_attempts added = 2%nat /\
    sleeps added = [2%Q].
Proof.
  destruct (retry_stops_at_first_success Example.pow Example.nap both
              (Example.world (Example.fails_first 1 " ok ") [] []) [] [] "ok" 2
              [2%Q])
    as (added & Hrun & _ & Hn & Hs & _).
  - reflexivity.
  - lia.
  - simpl. lia.
  - reflexivity.
  - repeat (constructor; [split; reflexivity|]). constructor.
  - intros h Hh. unfold attempt_outcome, Example.fails_first. simpl in *.
    destruct (Nat.leb_spec (chat_attempts h) 1); [eauto | lia].
  - intros h Hh. unfold attempt_outcome, Example.fails_first. simpl in *.
    rewrite Hh. reflexivity.
  - exists added. repeat split; assumption.
Defined.


(** X3 with [OPENAI_RETRY_ATTEMPTS=0]. *)
Lemma nonpositive_retry_attempts_raise_witness :
  call_openai_chat Example.pow Example.nap no_retries
    (Example.world Example.always_fails [] []) [] []
  = (Raise "AttributeError",
     [ELog ERROR "OpenAI calls failed after %d attempts: %s"]).
Proof.
  apply (nonpositive_retry_attempts_raise Example.pow Example.nap no_retries
           (Example.world Example.always_fails [] []) [] []).
  - reflexivity.
  - simpl. lia.
Defined.

(** X4 on a reply with whitespace around it. *)
Lemma call_openai_chat_bounded_witness :
  fst (call_openai_chat Example.pow Example.nap both
         (Example.world (Example.fails_first 1 "  ok ") [] []) [] [])
  = Ok (Some "ok") /\
  PyStr.strip "ok" = "ok".
Proof.
  split; [reflexivity|].
  destruct (call_openai_chat_bounded Example.pow Example.nap both
              (Example.world (Example.fails_first 1 "  ok ") [] []) [] [])
    as (added & _ & _ & _ & _ & Hstrip).
  apply Hstrip. reflexivity.
Defined.

(** X6 on a repository where the label cannot be created. *)
Lemma comment_survives_label_failure_witness :
  exists added,
    safe_post_comment_and_label both no_label_permission
      (PStr "acme/widget") (PInt 42) "hello" []
    = (Ok tt, [] ++ added) /\
    comments added = ["hello"] /\
    exists rest,
      hosting_calls added
      = [ get_repo (PStr "acme/widget");
          get_issue (PStr "acme/widget") (PInt 42);
          create_comment (PStr "acme/widget") (PInt 42) "hello";
          get_labels (PStr "acme/widget") ] ++ rest.
Proof.
  apply (comment_survives_label_failure both no_label_permission
           (PStr "acme/widget") (PInt 42) "hello" []); reflexivity.
Defined.

(** X7 on a hosting service that refuses the comment. *)
Lemma refused_comment_stops_labelling_witness :
  exists added,
    safe_post_comment_and_label both refusing_comments
      (PStr "acme/widget") (PInt 42) "hello" []
    = (Ok tt, [] ++ added) /\
    label_requests added = [].
Proof.
  apply (refused_comment_stops_labelling both refusing_comments
           (PStr "acme/widget") (PInt 42) "hello" []).
  intros h. exists "GithubException". reflexivity.
Defined.

(** X9 on a file with a two-line patch and a cap of one line. *)
Lemma snippet_prefers_patch_witness :
  fst (get_file_snippet_for_pr
         (Example.world Example.always_fails [] Example.ten_files)
         (PStr "acme/widget") (PInt 7) "src/f3.py" (PInt 1) [])
  = Ok "@@ -1 +1 @@".
Proof.
  rewrite (snippet_prefers_patch
             (Example.world Example.always_fails [] Example.ten_files)
             (PStr "acme/widget") (PInt 7) "src/f3.py" 1 []
             {| head_sha := "0a1b2c"; head_ref := "feature" |}
             Example.ten_files
             {| filename := "src/f3.py";
                patch := Some ("@@ -1 +1 @@" ++ PyStr.nl ++ "+x")%string |}
             ("@@ -1 +1 @@" ++ PyStr.nl ++ "+x")%string);
    try reflexivity.
  lia.
Defined.

(** X10 on a file without a patch. *)
Lemma snippet_falls_back_to_head_content_witness :
  get_file_snippet_for_pr
    (Example.world Example.always_fails [] readme_without_patch)
    (PStr "acme/widget") (PInt 7) "README.md" (PInt 1) []
  = (Ok "line one",
     [ ECall (get_pull (PStr "acme/widget") (PInt 7));
       ECall (get_files (PStr "acme/widget") (PInt 7));
       ECall (get_contents (PStr "acme/widget") "README.md" "0a1b2c") ]).
Proof.
  rewrite (snippet_falls_back_to_head_content
             (Example.world Example.always_fails [] readme_without_patch)
             (PStr "acme/widget") (PInt 7) "README.md" 1 []
             {| head_sha := "0a1b2c"; head_ref := "feature" |}
             readme_without_patch
             {| filename := "README.md"; patch := None |});
    try reflexivity.
  lia.
Defined.

(** X11 on a path that the pull request does not change. *)
Lemma snippet_of_unlisted_file_witness :
  fst (get_file_snippet_for_pr
         (Example.world Example.always_fails [] readme_without_patch)
         (PStr "acme/widget") (PInt 7) "setup.py" (PInt 40) [])
  = Ok "".
Proof.
  rewrite (snippet_of_unlisted_file
             (Example.world Example.always_fails [] readme_without_patch)
             (PStr "acme/widget") (PInt 7) "setup.py" (PInt 40) []
             {| head_sha := "0a1b2c"; head_ref := "feature" |}
             readme_without_patch);
    try reflexivity.
  simpl. intros [Heq|[]]. discriminate.
Defined.

(** X12 with [max_file_snippet_lines: forty]. *)
Lemma snippet_never_raises_witness :
  fst (get_file_snippet_for_pr
         (Example.world Example.always_fails [] Example.ten_files)
         (PStr "acme/widget") (PInt 7) "src/f3.py" (PStr "forty") [])
  = Ok "".
Proof.
  destruct (snippet_never_raises
              (Example.world Example.always_fails [] Example.ten_files)
              (PStr "acme/widget") (PInt 7) "src/f3.py" (PStr "forty") [])
    as (snippet & added & Hrun & _ & _ & Hbad).
  rewrite Hrun. simpl. f_equal. apply Hbad. reflexivity.
Defined.

(** X13 on an issue event without a repository entry. *)
Lemma handlers_abort_without_target_witness :
  handle_issue Example.pow Example.nap Example.show Example.format_fields both
    (Example.world Example.always_fails [] []) issue_without_repository
    (PDict []) []
  = (Ok tt,
     [ELog ERROR "Issue payload missing repository or issue number; aborting."]).
Proof.
  apply (proj2 (handlers_abort_without_target Example.pow Example.nap Example.show
                  Example.format_fields both
                  (Example.world Example.always_fails [] [])
                  issue_without_repository
                  [ ("title", PStr "Crash on startup"); ("body", PStr "");
                    ("number", PInt 42) ]
                  [] PNone (PInt 42) (PDict []) []
                  eq_refl eq_refl eq_refl (or_introl eq_refl))).
  reflexivity.
Defined.

(** X14 on an event whose pull request is [null]. *)
Lemma ill_typed_event_exits_one_witness :
  main Example.pow Example.nap Example.show Example.format_fields both
    (Example.world Example.always_fails [] [])
    (PDict [("pull_request", PNone)]) (PDict []) []
  = (Ok 1%Z, [ELog EXCEPTION "Unhandled exception in assistant main loop."]).
Proof.
  apply (proj1 (proj2 (ill_typed_event_exits_one Example.pow Example.nap Example.show
                         Example.format_fields both
                         (Example.world Example.always_fails [] [])
                         (PDict []) []))
           [("pull_request", PNone)] PNone); reflexivity.
Defined.

(** X15 on an event with both keys. *)
Lemma pull_request_takes_precedence_witness :
  main Example.pow Example.nap Example.show Example.format_fields no_key
    (Example.world Example.always_fails [] []) (PDict both_keys_event)
    (PDict []) []
  = main Example.pow Example.nap Example.show Example.format_fields no_key
      (Example.world Example.always_fails [] [])
      (PDict [ ("pull_request", PDict [ ("title", PStr "Add cache");
                                        ("body", PNone); ("number", PInt 7) ]);
               ("repository", PDict [ ("full_name", PStr "acme/widget") ]) ])
      (PDict []) [].
Proof.
  apply (pull_request_takes_precedence Example.pow Example.nap Example.show
           Example.format_fields no_key
           (Example.world Example.always_fails [] [])
           both_keys_event (PDict []) []).
  reflexivity.
Defined.

(** X18 on a pull request event with a suggestion and no hosting
    credential. *)
Lemma without_token_no_hosting_call_witness :
  exists added,
    snd (main Example.pow Example.nap Example.show Example.format_fields no_token
           (Example.world (Example.fails_first 0 "Looks fine.") [] Example.ten_files)
           Example.pr_event (PDict []) [])
    = [] ++ added /\
    hosting_calls added = [].
Proof.
  apply (without_token_no_hosting_call Example.pow Example.nap Example.show
           Example.format_fields no_token
           (Example.world (Example.fails_first 0 "Looks fine.") [] Example.ten_files)
           Example.pr_event (PDict []) []).
  reflexivity.
Defined.

(** X19 on a configuration file that is not YAML. *)
Lemma unusable_config_means_defaults_witness :
  exists logs,
    script Example.pow Example.nap Example.show Example.format_fields no_key
      (Example.world Example.always_fails [] []) broken_config []
    = main Example.pow Example.nap Example.show Example.format_fields no_key
        (Example.world Example.always_fails [] [])
        Example.issue_event (PDict []) ([] ++ logs) /\
    network_calls logs = [].
Proof.
  apply (unusable_config_means_defaults Example.pow Example.nap Example.show
           Example.format_fields no_key
           (Example.world Example.always_fails [] []) broken_config []);
    try reflexivity.
  right. left. exists "YAMLError". reflexivity.
Defined.

(** X20 on a configuration file that holds a list. *)
Lemma non_mapping_config_is_fatal_witness :
  main Example.pow Example.nap Example.show Example.format_fields both
    (Example.world Example.always_fails [] []) Example.issue_event
    (PList [PStr "system_prompt"]) []
  = (Ok 1%Z,
     [ ELog INFO "Handling issue %s#%s";
       ELog EXCEPTION "Unhandled exception in assistant main loop." ]).
Proof.
  apply (non_mapping_config_is_fatal Example.pow Example.nap Example.show
           Example.format_fields both
           (Example.world Example.always_fails [] [])
           _
           [ ("title", PStr "Crash on startup"); ("body", PStr "");
             ("number", PInt 42) ]
           [ ("full_name", PStr "acme/widget") ]
           (PStr "acme/widget") (PInt 42) (PList [PStr "system_prompt"]) []);
    reflexivity.
Defined.

(** X21 on a configured system prompt. *)
Lemma prompt_structure_witness :
  exists msgs,
    fst (build_issue_prompt Example.show Example.format_fields
           (PStr "Crash on startup") (PStr "") (PStr "acme/widget") (PInt 42)
           (PDict [("system_prompt", PStr "Be brief.")]) (@nil (@event Q)))
    = Ok msgs /\
    map role msgs = ["system"; "user"]%string /\
    option_map content (hd_error msgs) = Some (PStr "Be brief.").
Proof.
  eexists. split; [reflexivity|].
  apply (proj2 (prompt_structure (pyfloat := Q) Example.show Example.format_fields
                  (PStr "Crash on startup") (PStr "") [] []
                  (PStr "acme/widget") (PInt 42)
                  [("system_prompt", PStr "Be brief.")] [])
           _ []).
  reflexivity.
Defined.

(** X22 with [sensitive_paths: null]. *)
Lemma non_iterable_sensitive_paths_raise_witness :
  fst (build_pr_prompt Example.show Example.format_fields
         (PStr "Add cache") (PStr "") ["cache.py"] []
         (PStr "acme/widget") (PInt 7)
         (PDict [("sensitive_paths", PNone)]) (@nil (@event Q)))
  = Raise "TypeError".
Proof.
  apply (non_iterable_sensitive_paths_raise (pyfloat := Q) Example.show
           Example.format_fields (PStr "Add cache") (PStr "") ["cache.py"] []
           (PStr "acme/widget") (PInt 7) [("sensitive_paths", PNone)] PNone);
    reflexivity.
Defined.


(** X24 on a pull request that cannot be read. *)
Lemma suggestion_survives_unreadable_pull_witness :
  exists added,
    handle_pull_request Example.pow Example.nap Example.show Example.format_fields both
      (unreadable_pull (fun _ => Ok (Example.chat_response " Looks fine. ")))
      Example.pr_event (PDict []) []
    = (Ok tt, [] ++ added) /\
    comments added = [pr_comment "Looks fine."] /\
    hosting_calls added
    = [ get_repo (PStr "acme/widget"); get_pull (PStr "acme/widget") (PInt 7);
        get_repo (PStr "acme/widget"); get_issue (PStr "acme/widget") (PInt 7);
        create_comment (PStr "acme/widget") (PInt 7) (pr_comment "Looks fine.");
        get_labels (PStr "acme/widget");
        create_label (PStr "acme/widget") "ai-assisted" "f29513"
          "AI-assisted content";
        add_to_labels (PStr "acme/widget") (PInt 7) "ai-assisted" ].
Proof.
  destruct (suggestion_survives_unreadable_pull Example.pow Example.nap Example.show
              Example.format_fields both
              (unreadable_pull (fun _ => Ok (Example.chat_response " Looks fine. ")))
              [ ("pull_request", PDict [ ("title", PStr "Add cache");
                                         ("body", PNone); ("number", PInt 7) ]);
                ("repository", PDict [ ("full_name", PStr "acme/widget") ]) ]
              [ ("title", PStr "Add cache"); ("body", PNone); ("number", PInt 7) ]
              [ ("full_name", PStr "acme/widget") ]
              (PStr "acme/widget") (PInt 7) [] (PList []) []
              (Example.chat_response " Looks fine. ") " Looks fine. " [] [])
    as (added & Hrun & _ & Hcomments & Hcalls); try reflexivity.
  - simpl. lia.
  - intros h. exists "UnknownObjectException". reflexivity.
  - vm_compute. discriminate.
  - repeat split.
  - exists added. repeat split; assumption.
Defined.

(** X25 with [OPENAI_RETRY_BACKOFF=-2]: the first failure ends the call
    with the [ValueError] of [time.sleep]. *)
Lemma refused_wait_ends_the_call_witness :
  exists added,
    call_openai_chat Example.pow Example.nap negative_backoff
      (Example.world Example.always_fails [] []) [] []
    = (Raise "ValueError", added) /\
    chat_attempts added = 1%nat /\
    sleeps added = [].
Proof.
  destruct (refused_wait_ends_the_call Example.pow Example.nap negative_backoff
              (Example.world Example.always_fails [] []) [] [] 1 []
              "ValueError")
    as (added & Hrun & Hn & Hs).
  - reflexivity.
  - lia.
  - simpl. lia.
  - reflexivity.
  - constructor.
  - intros h _. exists "APIConnectionError". reflexivity.
  - right. exists (-2)%Q. split; reflexivity.
  - exists added. repeat split; assumption.
Defined.

End Runs.
